(** * antnest: job identity, split/combine strategies, master loop, job submission

    A shallow embedding of [job.py], [master.py] and [commands/create_job.py]
    together with the properties of the job-distribution engine that are
    stated about them.

    Conventions.
    - A Python [str] is a list of Unicode code points, a [bytes] object a list
      of octets; both are lists over [Z].
    - Code that can raise returns a [result]; code that mutates objects
      threads the mutated state explicitly and keeps the state reached when
      an exception is raised.
    - A Python [dict] is a [gmap]; a Python [list] is a [list]. *)

From Stdlib Require Import ZArith List String Ascii Lia Bool DecimalString.
From stdpp Require Import base option list gmap.

Local Open Scope Z_scope.

(* ===================================================================== *)
(** * Python runtime model                                                *)
(* ===================================================================== *)

(** A [str]: code points.  A [bytes]: octets. *)
Abbreviation str := (list Z).
Abbreviation bytes := (list Z).

(** ASCII literal to [str]. *)
Fixpoint lit (s : string) : str :=
  match s with
  | EmptyString => []
  | String c s' => Z.of_N (N_of_ascii c) :: lit s'
  end.

Inductive exn : Type :=
  | NameError (name : string)
  | AttributeError (attr : string)
  | TypeError
  | KeyError
  | IndexError
  | ValueError
  | UnicodeEncodeError
  | UnicodeDecodeError
  | ModuleNotFoundError.

Inductive result (A : Type) : Type :=
  | Ok (a : A)
  | Raise (e : exn).
Arguments Ok {A} a.
Arguments Raise {A} e.

Definition rbind {A B} (r : result A) (k : A -> result B) : result B :=
  match r with
  | Ok a => k a
  | Raise e => Raise e
  end.

Definition result_to_option {A} (r : result A) : option A :=
  match r with
  | Ok a => Some a
  | Raise _ => None
  end.

#[global] Instance result_ret : MRet result := fun _ a => Ok a.
#[global] Instance result_bind : MBind result := fun _ _ k r => rbind r k.

(** The values the modelled code passes around as job data and results. *)
Inductive pyval : Type :=
  | VNone
  | VInt (n : Z)
  | VStr (s : str)
  | VBytes (b : bytes).

(** ** [bytes(s, 'UTF-8')] *)

Definition is_surrogate (c : Z) : bool := (0xD800 <=? c) && (c <=? 0xDFFF).

Definition utf8_encode_char (c : Z) : result bytes :=
  if c <? 0 then Raise UnicodeEncodeError
  else if c <? 0x80 then Ok [c]
  else if c <? 0x800 then
    Ok [Z.lor 0xC0 (Z.shiftr c 6); Z.lor 0x80 (Z.land c 0x3F)]
  else if is_surrogate c then Raise UnicodeEncodeError
  else if c <? 0x10000 then
    Ok [Z.lor 0xE0 (Z.shiftr c 12);
        Z.lor 0x80 (Z.land (Z.shiftr c 6) 0x3F);
        Z.lor 0x80 (Z.land c 0x3F)]
  else if c <? 0x110000 then
    Ok [Z.lor 0xF0 (Z.shiftr c 18);
        Z.lor 0x80 (Z.land (Z.shiftr c 12) 0x3F);
        Z.lor 0x80 (Z.land (Z.shiftr c 6) 0x3F);
        Z.lor 0x80 (Z.land c 0x3F)]
  else Raise UnicodeEncodeError.

Fixpoint utf8_encode (s : str) : result bytes :=
  match s with
  | [] => Ok []
  | c :: s' =>
      b ← utf8_encode_char c;
      bs ← utf8_encode s';
      Ok (b ++ bs)
  end.

(** [bytes(x, 'UTF-8')]: only a [str] can be given an encoding. *)
Definition py_bytes_utf8 (x : pyval) : result bytes :=
  match x with
  | VStr s => utf8_encode s
  | _ => Raise TypeError
  end.

Definition isinstance_bytes (x : pyval) : bool :=
  match x with
  | VBytes _ => true
  | _ => false
  end.

(** A value used as the [bytes] object it is. *)
Definition as_bytes (x : pyval) : result bytes :=
  match x with
  | VBytes b => Ok b
  | _ => Raise TypeError
  end.

(** ** [str.split(sep)] for a one-character separator *)

Fixpoint str_split (sep : Z) (s : str) : list str :=
  match s with
  | [] => [[]]
  | c :: s' =>
      if c =? sep then [] :: str_split sep s'
      else match str_split sep s' with
           | l :: ls => (c :: l) :: ls
           | [] => [[c]]
           end
  end.

Definition newline : Z := 10.

(** ** [hashlib.md5] (RFC 1321) *)

Definition mask32 : Z := 0xFFFFFFFF.
Definition add32 (a b : Z) : Z := Z.land (a + b) mask32.
Definition not32 (a : Z) : Z := Z.lxor a mask32.
Definition rotl32 (x c : Z) : Z :=
  Z.lor (Z.land (Z.shiftl x c) mask32) (Z.shiftr x (32 - c)).

Definition md5_S : list Z :=
  [7; 12; 17; 22; 7; 12; 17; 22; 7; 12; 17; 22; 7; 12; 17; 22;
   5; 9; 14; 20; 5; 9; 14; 20; 5; 9; 14; 20; 5; 9; 14; 20;
   4; 11; 16; 23; 4; 11; 16; 23; 4; 11; 16; 23; 4; 11; 16; 23;
   6; 10; 15; 21; 6; 10; 15; 21; 6; 10; 15; 21; 6; 10; 15; 21].

Definition md5_K : list Z :=
  [0xd76aa478; 0xe8c7b756; 0x242070db; 0xc1bdceee;
   0xf57c0faf; 0x4787c62a; 0xa8304613; 0xfd469501;
   0x698098d8; 0x8b44f7af; 0xffff5bb1; 0x895cd7be;
   0x6b901122; 0xfd987193; 0xa679438e; 0x49b40821;
   0xf61e2562; 0xc040b340; 0x265e5a51; 0xe9b6c7aa;
   0xd62f105d; 0x02441453; 0xd8a1e681; 0xe7d3fbc8;
   0x21e1cde6; 0xc33707d6; 0xf4d50d87; 0x455a14ed;
   0xa9e3e905; 0xfcefa3f8; 0x676f02d9; 0x8d2a4c8a;
   0xfffa3942; 0x8771f681; 0x6d9d6122; 0xfde5380c;
   0xa4beea44; 0x4bdecfa9; 0xf6bb4b60; 0xbebfbc70;
   0x289b7ec6; 0xeaa127fa; 0xd4ef3085; 0x04881d05;
   0xd9d4d039; 0xe6db99e5; 0x1fa27cf8; 0xc4ac5665;
   0xf4292244; 0x432aff97; 0xab9423a7; 0xfc93a039;
   0x655b59c3; 0x8f0ccc92; 0xffeff47d; 0x85845dd1;
   0x6fa87e4f; 0xfe2ce6e0; 0xa3014314; 0x4e0811a1;
   0xf7537e82; 0xbd3af235; 0x2ad7d2bb; 0xeb86d391].

(** Little-endian 32-bit words of a 64-octet block. *)
Fixpoint le_words (n : nat) (b : bytes) : list Z :=
  match n with
  | O => []
  | S n' =>
      match b with
      | b0 :: b1 :: b2 :: b3 :: rest =>
          (b0 + Z.shiftl b1 8 + Z.shiftl b2 16 + Z.shiftl b3 24)
            :: le_words n' rest
      | _ => []
      end
  end.

Definition le_bytes32 (w : Z) : bytes :=
  [Z.land w 0xFF; Z.land (Z.shiftr w 8) 0xFF;
   Z.land (Z.shiftr w 16) 0xFF; Z.land (Z.shiftr w 24) 0xFF].

Record md5_state : Type := MD5State { md5_a : Z; md5_b : Z; md5_c : Z; md5_d : Z }.

Definition md5_init : md5_state :=
  MD5State 0x67452301 0xefcdab89 0x98badcfe 0x10325476.

Definition md5_round (M : list Z) (i : nat) (st : md5_state) : md5_state :=
  let '(MD5State A B C D) := st in
  let iz := Z.of_nat i in
  let '(F, g) :=
    if iz <? 16 then (Z.lor (Z.land B C) (Z.land (not32 B) D), iz)
    else if iz <? 32 then
      (Z.lor (Z.land D B) (Z.land (not32 D) C), (5 * iz + 1) mod 16)
    else if iz <? 48 then (Z.lxor (Z.lxor B C) D, (3 * iz + 5) mod 16)
    else (Z.lxor C (Z.lor B (not32 D)), (7 * iz) mod 16) in
  let F' := add32 (add32 (add32 F A) (nth i md5_K 0)) (nth (Z.to_nat g) M 0) in
  MD5State D (add32 B (rotl32 F' (nth i md5_S 0))) B C.

Definition md5_block (st : md5_state) (block : bytes) : md5_state :=
  let M := le_words 16 block in
  let st' := fold_left (fun s i => md5_round M i s) (seq 0 64) st in
  MD5State (add32 (md5_a st) (md5_a st')) (add32 (md5_b st) (md5_b st'))
           (add32 (md5_c st) (md5_c st')) (add32 (md5_d st) (md5_d st')).

Fixpoint md5_blocks (n : nat) (st : md5_state) (b : bytes) : md5_state :=
  match n with
  | O => st
  | S n' => md5_blocks n' (md5_block st (firstn 64 b)) (skipn 64 b)
  end.

Definition md5_pad (msg : bytes) : bytes :=
  let len := Z.of_nat (length msg) in
  let zeros := Z.to_nat ((55 - len) mod 64) in
  let bits := (8 * len) mod 2 ^ 64 in
  msg ++ [0x80] ++ repeat 0 zeros
      ++ le_bytes32 (Z.land bits mask32) ++ le_bytes32 (Z.shiftr bits 32).

Definition md5_digest (msg : bytes) : bytes :=
  let padded := md5_pad msg in
  let st := md5_blocks (Nat.div (length padded) 64) md5_init padded in
  le_bytes32 (md5_a st) ++ le_bytes32 (md5_b st)
    ++ le_bytes32 (md5_c st) ++ le_bytes32 (md5_d st).

Definition hex_digit (n : Z) : Z :=
  if n <? 10 then 48 + n else 87 + n.

Definition hex_of_bytes (b : bytes) : str :=
  flat_map (fun x => [hex_digit (Z.shiftr x 4); hex_digit (Z.land x 0xF)]) b.

(** The hash object: [m = hashlib.md5()], [m.update(data)], [m.hexdigest()]. *)
Record md5_object : Type := MD5Object { md5_fed : bytes }.

Definition hashlib_md5 : md5_object := MD5Object [].
Definition md5_update (m : md5_object) (data : bytes) : md5_object :=
  MD5Object (md5_fed m ++ data).
Definition md5_hexdigest (m : md5_object) : str :=
  hex_of_bytes (md5_digest (md5_fed m)).

(* ===================================================================== *)
(** * job.py                                                              *)
(* ===================================================================== *)

(** [compute_job_id].  Each input goes through
    [if isinstance(x, bytes): x_bytes = x] [else: x_bytes = bytes(x, 'UTF-8')]. *)
Definition compute_job_id
    (input_data processor_code split_code combine_code : pyval) : result str :=
  let m := hashlib_md5 in
  input_data_bytes ←
    (if isinstance_bytes input_data then as_bytes input_data
     else py_bytes_utf8 input_data);
  processor_code_bytes ←
    (if isinstance_bytes processor_code then as_bytes processor_code
     else py_bytes_utf8 processor_code);
  split_code_bytes ←
    (if isinstance_bytes split_code then as_bytes split_code
     else py_bytes_utf8 split_code);
  combine_code_bytes ←
    (if isinstance_bytes combine_code then as_bytes combine_code
     else py_bytes_utf8 combine_code);
  let hashable := input_data_bytes ++ processor_code_bytes
                    ++ split_code_bytes ++ combine_code_bytes in
  let m := md5_update m hashable in
  Ok (md5_hexdigest m).

(** A processor: a function object, known to the system by its source text
    (the attribute [_code] that is shipped to the workers). *)
Record Processor : Type := { proc_code : str }.

(** Modelled from the spec: [taskunit.TaskUnit] ([taskunit.py] is not part of
    the sources).  A unit carries [id], [job_id], [data], [processor],
    [result], [state] and [retries]; the constructor called as
    [TaskUnit(data=..., processor=...)] fills in [data] and [processor] and
    leaves the others at their initial values. *)
Inductive TaskState : Type := Created | Dispatched | Completed | Failed.

Record TaskUnit : Type := {
  tu_id : option str;
  tu_job_id : option str;
  tu_data : pyval;
  tu_processor : option Processor;
  tu_result : pyval;
  tu_state : TaskState;
  tu_retries : Z
}.

Definition TaskUnit_new (data : pyval) (processor : option Processor) : TaskUnit :=
  {| tu_id := None; tu_job_id := None; tu_data := data;
     tu_processor := processor; tu_result := VNone; tu_state := Created;
     tu_retries := 0 |}.

(** A generator run to its end: the items it yields, then either normal
    exhaustion ([None]) or the exception that ends it. *)
Definition generator (A : Type) : Type := (list A * option exn)%type.

(** Files written by the process: name to contents. *)
Abbreviation FileSystem := (gmap (list Z) (list Z)).

(** The [time] module as far as the code uses it: [time.strftime(format)]. *)
Record TimeModule : Type := { strftime : str -> str }.

(** A module-level name resolves to its binding, or raises [NameError] when
    the module neither imports nor assigns it. *)
Definition load_global {A} (name : string) (binding : option A) : result A :=
  match binding with
  | Some v => Ok v
  | None => Raise (NameError name)
  end.

(** [job.py] imports [json], [hashlib], [serialize] and [taskunit]; the name
    [time] is bound nowhere in the module. *)
Definition job_py_time : option TimeModule := None.

Definition split_method : Type := pyval -> option Processor -> generator TaskUnit.
Definition combine_method : Type :=
  list TaskUnit -> FileSystem -> result unit * FileSystem.

(** ** class Splitter *)

Record Splitter : Type := {
  splitter_noserialize : list string;
  (** an instance attribute [split], when one has been assigned *)
  splitter_split_attr : option split_method
}.

Definition Splitter_init : Splitter :=
  {| splitter_noserialize := ["set_split_method"%string];
     splitter_split_attr := None |}.

(** [Splitter.split]: the default strategy, one unit per line. *)
Definition Splitter_split (input_data : pyval) (processor : option Processor)
  : generator TaskUnit :=
  match input_data with
  | VStr s =>
      let input_lines := str_split newline s in
      (map (fun input_line => TaskUnit_new (VStr input_line) processor) input_lines,
       None)
  | VBytes _ => ([], Some TypeError)
  | VNone | VInt _ => ([], Some (AttributeError "split"))
  end.

(** ** class Combiner *)

Record Combiner : Type := {
  combiner_noserialize : list string;
  combiner_taskunits : list TaskUnit;
  (** an instance attribute [combine], when one has been assigned *)
  combiner_combine_attr : option combine_method
}.

Definition Combiner_init : Combiner :=
  {| combiner_noserialize :=
       ["set_combine_method"; "add_taskunits"; "taskunits"]%string;
     combiner_taskunits := [];
     combiner_combine_attr := None |}.

Definition add_taskunits (self : Combiner) (tu : list TaskUnit) : Combiner :=
  {| combiner_noserialize := combiner_noserialize self;
     combiner_taskunits := combiner_taskunits self ++ tu;
     combiner_combine_attr := combiner_combine_attr self |}.

(** [sum(results)] on the values of [pyval]: integer addition from 0;
    [None], text or bytes is a [TypeError].  Floating-point results are
    outside [pyval]. *)
Fixpoint py_sum_from (acc : Z) (results : list pyval) : result Z :=
  match results with
  | [] => Ok acc
  | VInt n :: rest => py_sum_from (acc + n) rest
  | _ :: _ => Raise TypeError
  end.

Definition py_sum (results : list pyval) : result Z := py_sum_from 0 results.

(** [json.dumps(n, indent=2)] of an integer: its decimal text. *)
Definition json_dumps_int (n : Z) : str := lit (NilZero.string_of_int (Z.to_int n)).

Definition result_file_format : str := lit "%Y-%m-%d_%H:%M:%S".

(** [Combiner.combine], with the binding of the module-level name [time]
    made explicit. *)
Definition Combiner_combine_with (time_binding : option TimeModule)
    (taskunits : list TaskUnit) (fs : FileSystem) : result unit * FileSystem :=
  let results := map tu_result taskunits in
  match py_sum results with
  | Raise e => (Raise e, fs)
  | Ok combined_result =>
      let json_string := json_dumps_int combined_result in
      match load_global "time" time_binding with
      | Raise e => (Raise e, fs)
      | Ok time =>
          let result_file := lit "result_" ++ strftime time result_file_format in
          (Ok tt, <[result_file := json_string]> fs)
      end
  end.

(** [Combiner.combine] as it runs inside [job.py]. *)
Definition Combiner_combine : combine_method := Combiner_combine_with job_py_time.

(** ** Class-level attributes

    [Job.__init__] assigns [processor] on the class; [set_split_method] and
    [set_combine_method] rebind [split] and [combine] on their classes. *)
Record Classes : Type := {
  (** [Job.processor]: [None] while no [Job] has been constructed *)
  Job_processor : option (option Processor);
  Splitter_split_attr : split_method;
  Combiner_combine_attr : combine_method
}.

Definition initial_classes : Classes :=
  {| Job_processor := None;
     Splitter_split_attr := Splitter_split;
     Combiner_combine_attr := Combiner_combine |}.

Definition set_split_method (cls : Classes) (m : split_method) : Classes :=
  {| Job_processor := Job_processor cls;
     Splitter_split_attr := m;
     Combiner_combine_attr := Combiner_combine_attr cls |}.

Definition set_combine_method (cls : Classes) (m : combine_method) : Classes :=
  {| Job_processor := Job_processor cls;
     Splitter_split_attr := Splitter_split_attr cls;
     Combiner_combine_attr := m |}.

(** Attribute lookup [s.split] / [c.combine]: instance first, then class. *)
Definition splitter_split (cls : Classes) (s : Splitter) : split_method :=
  match splitter_split_attr s with
  | Some m => m
  | None => Splitter_split_attr cls
  end.

Definition combiner_combine (cls : Classes) (c : Combiner) : combine_method :=
  match combiner_combine_attr c with
  | Some m => m
  | None => Combiner_combine_attr cls
  end.

(** ** class Job *)

Record Job : Type := {
  job_noserialize : list string;
  job_id : option str;
  input_data : pyval;
  splitter : Splitter;
  combiner : Combiner;
  taskunits : gmap (list Z) TaskUnit;
  (** assigned by the master only; [None] while the attribute does not exist *)
  pending_taskunits : option Z
}.

(** [Job.__init__]; returns the instance and the class attributes after it.
    [noserialize] holds the names this class adds to the list of its base. *)
Definition Job_init (cls : Classes)
    (id : option str) (input_data : pyval) (processor : option Processor)
    (splitter : option Splitter) (combiner : option Combiner) : Job * Classes :=
  let cls' := {| Job_processor := Some processor;
                 Splitter_split_attr := Splitter_split_attr cls;
                 Combiner_combine_attr := Combiner_combine_attr cls |} in
  ({| job_noserialize := ["taskunits"%string];
      job_id := id;
      input_data := input_data;
      splitter := match splitter with Some s => s | None => Splitter_init end;
      combiner := match combiner with Some c => c | None => Combiner_init end;
      taskunits := ∅;
      pending_taskunits := None |},
   cls').

(** The parameters [Job.__init__] declares. *)
Definition Job_init_params : list string :=
  ["id"; "input_data"; "processor"; "splitter"; "combiner"]%string.

(** A call [Job(...)]: the values bound to the five declared parameters
    (absent ones at their default [None]) and the keyword names the call site
    uses.  A keyword the signature does not declare is a [TypeError], raised
    before the body runs. *)
Definition Job_new (cls : Classes)
    (id : option str) (input_data : pyval) (processor : option Processor)
    (splitter : option Splitter) (combiner : option Combiner)
    (keywords : list string) : result Job * Classes :=
  if forallb (fun k => bool_decide (k ∈ Job_init_params)) keywords
  then let '(j, cls') := Job_init cls id input_data processor splitter combiner in
       (Ok j, cls')
  else (Raise TypeError, cls).

(** Attribute lookup [j.processor]: a [Job] has no instance attribute of
    that name, so the class attribute answers. *)
Definition job_processor (cls : Classes) (j : Job) : result (option Processor) :=
  match Job_processor cls with
  | Some p => Ok p
  | None => Raise (AttributeError "processor")
  end.

(* ===================================================================== *)
(** * master.py                                                           *)
(* ===================================================================== *)

(** A network address: [(host, port)]. *)
Abbreviation address := (list Z * Z)%type.

(** Modelled from the spec: [message.Message] ([message.py] is not part of
    the sources): an envelope with a type tag, one of [STATUS], [JOB],
    [TASKUNIT_RESULT], and an opaque byte payload. *)
Inductive msg_type_tag : Type :=
  | MSG_STATUS
  | MSG_JOB
  | MSG_TASKUNIT_RESULT
  | MSG_OTHER (tag : Z).

Record Message : Type := { msg_type : msg_type_tag; msg_payload : bytes }.

(** Modelled from the spec: [node.RemoteNode] ([node.py] is not part of the
    sources): a known worker, identified by its network address. *)
Record RemoteNode : Type := { node_ip : option str; node_address : address }.

Definition RemoteNode_new (ip : option str) (a : address) : RemoteNode :=
  {| node_ip := ip; node_address := a |}.

(** Modelled from the spec: [schedule.MinMakespan] ([schedule.py] is not part
    of the sources).  The state is one cumulative load per slot;
    [add_machine] appends a slot with zero load; [schedule_job] picks the
    slot of minimum load, lowest index on ties, adds one unit of cost to it
    and returns its index; with no slot it is an error. *)
Record MinMakespan : Type := { loads : list Z }.

Definition MinMakespan_init : MinMakespan := {| loads := [] |}.

Definition add_machine (s : MinMakespan) : MinMakespan :=
  {| loads := loads s ++ [0] |}.

Fixpoint argmin_from (best_i : nat) (best : Z) (i : nat) (l : list Z) : nat :=
  match l with
  | [] => best_i
  | x :: l' =>
      if x <? best then argmin_from i x (S i) l'
      else argmin_from best_i best (S i) l'
  end.

Definition schedule_job (s : MinMakespan) (tu : TaskUnit)
  : result (nat * MinMakespan) :=
  match loads s with
  | [] => Raise ValueError
  | x :: rest =>
      let i := argmin_from 0 x 1 rest in
      Ok (i, {| loads := alter (fun load => load + 1) i (loads s) |})
  end.

(** Modelled from the spec: [messenger.Messenger] ([messenger.py] is not part
    of the sources): named destination addresses and the items enqueued for
    delivery, oldest first.  [send_taskunit] enqueues a unit for an address
    together with the names of the attributes to ship; [send_job] enqueues a
    job for a named destination. *)
Inductive outbound_item : Type :=
  | OutTaskUnit (tu : TaskUnit) (to : address) (attrs : list string)
  | OutJob (j : Job) (destination : str).

Record Messenger : Type := {
  destinations : gmap (list Z) address;
  outbound_queue : list outbound_item
}.

Definition Messenger_init : Messenger :=
  {| destinations := ∅; outbound_queue := [] |}.

Definition register_destination (m : Messenger) (name : str) (a : address)
  : Messenger :=
  {| destinations := <[name := a]> (destinations m);
     outbound_queue := outbound_queue m |}.

Definition send_taskunit (m : Messenger) (tu : TaskUnit) (a : address)
    (attrs : list string) : Messenger :=
  {| destinations := destinations m;
     outbound_queue := outbound_queue m ++ [OutTaskUnit tu a attrs] |}.

Definition send_job (m : Messenger) (j : Job) (destination : str) : Messenger :=
  {| destinations := destinations m;
     outbound_queue := outbound_queue m ++ [OutJob j destination] |}.

(** ** class Master *)

Record Master : Type := {
  pending_jobs : list Job;
  completed_jobs : list Job;
  slave_nodes : list RemoteNode;
  scheduler : MinMakespan;
  messenger : Messenger;
  jobs : gmap (option (list Z)) Job
}.

Definition Master_init : Master :=
  {| pending_jobs := []; completed_jobs := []; slave_nodes := [];
     scheduler := MinMakespan_init; messenger := Messenger_init; jobs := ∅ |}.

(** The master object together with the process-wide state its loop can
    touch: class attributes and written files. *)
Record Process : Type := {
  master : Master;
  classes : Classes;
  files : FileSystem
}.

Definition initial_process : Process :=
  {| master := Master_init; classes := initial_classes; files := ∅ |}.

(** What one pass through the loop body ends in: back to the top of the loop,
    or an exception leaving [worker] with nothing to catch it. *)
Inductive outcome : Type :=
  | Continue (p : Process)
  | Uncaught (e : exn) (p : Process).

(** [master.py] imports [json], [time], [inspect], [node], [messenger],
    [message], [taskunit], [job] and [schedule] and defines [Master]; the
    name [deserialized_msg] is bound nowhere in the module. *)
Definition master_py_deserialized_msg : option TaskUnit := None.

(** Library and collaborator functions the loop calls and whose code is
    not part of the sources. *)
Class Collaborators : Type := {
  (** [node.Node.STATE_UP] *)
  STATE_UP : Z;
  (** [int(payload.decode('utf-8'))] *)
  int_of_utf8 : bytes -> result Z;
  (** [job.Job.deserialize(payload.decode('utf-8'))]; building the object
      may assign class attributes *)
  Job_deserialize : bytes -> Classes -> result Job * Classes;
  (** [inspect.getsource] *)
  inspect_getsource : option Processor -> result str;
  (** [taskunit.compute_taskunit_id] *)
  compute_taskunit_id : pyval -> str -> result str
}.

Definition set_job_taskunits (j : Job) (t : gmap (list Z) TaskUnit) : Job :=
  {| job_noserialize := job_noserialize j; job_id := job_id j;
     input_data := input_data j; splitter := splitter j;
     combiner := combiner j; taskunits := t;
     pending_taskunits := pending_taskunits j |}.

Definition set_job_pending (j : Job) (n : Z) : Job :=
  {| job_noserialize := job_noserialize j; job_id := job_id j;
     input_data := input_data j; splitter := splitter j;
     combiner := combiner j; taskunits := taskunits j;
     pending_taskunits := Some n |}.

Definition set_job_combiner (j : Job) (c : Combiner) : Job :=
  {| job_noserialize := job_noserialize j; job_id := job_id j;
     input_data := input_data j; splitter := splitter j;
     combiner := c; taskunits := taskunits j;
     pending_taskunits := pending_taskunits j |}.

Definition set_scheduler (self : Master) (s : MinMakespan) : Master :=
  {| pending_jobs := pending_jobs self; completed_jobs := completed_jobs self;
     slave_nodes := slave_nodes self; scheduler := s;
     messenger := messenger self; jobs := jobs self |}.

Definition set_messenger (self : Master) (m : Messenger) : Master :=
  {| pending_jobs := pending_jobs self; completed_jobs := completed_jobs self;
     slave_nodes := slave_nodes self; scheduler := scheduler self;
     messenger := m; jobs := jobs self |}.

Definition set_slave_nodes (self : Master) (l : list RemoteNode) : Master :=
  {| pending_jobs := pending_jobs self; completed_jobs := completed_jobs self;
     slave_nodes := l; scheduler := scheduler self;
     messenger := messenger self; jobs := jobs self |}.

(** [self.jobs[j.id] = j].  The table holds the job object itself, so every
    later change to [j] is a change to the table's entry. *)
Definition store_job (self : Master) (j : Job) : Master :=
  {| pending_jobs := pending_jobs self; completed_jobs := completed_jobs self;
     slave_nodes := slave_nodes self; scheduler := scheduler self;
     messenger := messenger self; jobs := <[job_id j := j]> (jobs self) |}.

(** A job reached through [self.jobs[key]] and changed in place. *)
Definition update_job (self : Master) (key : option (list Z)) (j : Job) : Master :=
  {| pending_jobs := pending_jobs self; completed_jobs := completed_jobs self;
     slave_nodes := slave_nodes self; scheduler := scheduler self;
     messenger := messenger self; jobs := <[key := j]> (jobs self) |}.

Definition taskunit_attrs : list string :=
  ["id"; "job_id"; "data"; "processor._code"; "retries"]%string.

Section MasterLoop.
Context `{Collaborators}.

(** The body of the [for tu in ...] loop of the [JOB] branch, for one
    unit: the master and the job after it, and the exception that ended
    it, if any. *)
Definition dispatch_taskunit (self : Master) (j : Job) (tu : TaskUnit)
  : Master * Job * option exn :=
  match inspect_getsource (tu_processor tu) with
  | Raise e => (self, j, Some e)
  | Ok source =>
  match compute_taskunit_id (tu_data tu) source with
  | Raise e => (self, j, Some e)
  | Ok taskunit_id =>
      let tu := {| tu_id := Some taskunit_id; tu_job_id := job_id j;
                   tu_data := tu_data tu; tu_processor := tu_processor tu;
                   tu_result := tu_result tu; tu_state := tu_state tu;
                   tu_retries := tu_retries tu |} in
      let j := set_job_taskunits j (<[taskunit_id := tu]> (taskunits j)) in
      match schedule_job (scheduler self) tu with
      | Raise e => (self, j, Some e)
      | Ok (next_slave, sched) =>
          let self := set_scheduler self sched in
          match slave_nodes self !! next_slave with
          | None => (self, j, Some IndexError)
          | Some slave =>
              let slave_address := node_address slave in
              let attrs := taskunit_attrs in
              (set_messenger self
                 (send_taskunit (messenger self) tu slave_address attrs),
               j, None)
          end
      end
  end
  end.

Fixpoint dispatch_taskunits (self : Master) (j : Job) (units : list TaskUnit)
  : Master * Job * option exn :=
  match units with
  | [] => (self, j, None)
  | tu :: rest =>
      match dispatch_taskunit self j tu with
      | (self', j', None) => dispatch_taskunits self' j' rest
      | stopped => stopped
      end
  end.

(** The [MSG_STATUS] branch. *)
Definition on_status (p : Process) (a : address) (msg : Message) : outcome :=
  match int_of_utf8 (msg_payload msg) with
  | Raise e => Uncaught e p
  | Ok status =>
      if status =? STATE_UP then
        let self := master p in
        let self :=
          set_slave_nodes self (slave_nodes self ++ [RemoteNode_new None a]) in
        let self := set_scheduler self (add_machine (scheduler self)) in
        let self :=
          set_messenger self
            (register_destination (messenger self) (lit "slave1") a) in
        Continue {| master := self; classes := classes p; files := files p |}
      else Continue p
  end.

(** The [MSG_JOB] branch. *)
Definition on_job (p : Process) (msg : Message) : outcome :=
  match Job_deserialize (msg_payload msg) (classes p) with
  | (Raise e, cls) =>
      Uncaught e {| master := master p; classes := cls; files := files p |}
  | (Ok j, cls) =>
      let self := store_job (master p) j in
      match job_processor cls j with
      | Raise e =>
          Uncaught e {| master := self; classes := cls; files := files p |}
      | Ok processor =>
          let '(units, ending) :=
            splitter_split cls (splitter j) (input_data j) processor in
          match dispatch_taskunits self j units with
          | (self, j, Some e) =>
              Uncaught e {| master := store_job self j; classes := cls;
                            files := files p |}
          | (self, j, None) =>
              match ending with
              | Some e =>
                  Uncaught e {| master := store_job self j; classes := cls;
                                files := files p |}
              | None =>
                  let j := set_job_pending j (Z.of_nat (size (taskunits j))) in
                  Continue {| master := store_job self j; classes := cls;
                              files := files p |}
              end
          end
      end
  end.

(** The [MSG_TASKUNIT_RESULT] branch, with the binding of the
    module-level name [deserialized_msg] made explicit. *)
Definition on_taskunit_result (deserialized_msg : option TaskUnit)
    (p : Process) : outcome :=
  match load_global "deserialized_msg" deserialized_msg with
  | Raise e => Uncaught e p
  | Ok tu =>
      let self := master p in
      match jobs self !! tu_job_id tu with
      | None => Uncaught KeyError p
      | Some j =>
          match tu_id tu with
          | None => Uncaught KeyError p
          | Some taskunit_id =>
          match taskunits j !! taskunit_id with
          | None => Uncaught KeyError p
          | Some t =>
              let t := {| tu_id := tu_id t; tu_job_id := tu_job_id t;
                          tu_data := tu_data t; tu_processor := tu_processor t;
                          tu_result := tu_result tu; tu_state := tu_state tu;
                          tu_retries := tu_retries t |} in
              let j := set_job_taskunits j (<[taskunit_id := t]> (taskunits j)) in
              match pending_taskunits j with
              | None =>
                  Uncaught (AttributeError "pending_taskunits")
                    {| master := update_job self (tu_job_id tu) j;
                       classes := classes p; files := files p |}
              | Some pending =>
                  let j := set_job_pending j (pending - 1) in
                  if pending - 1 =? 0 then
                    let c := add_taskunits (combiner j)
                               ((map_to_list (taskunits j)).*2) in
                    let j := set_job_combiner j c in
                    match combiner_combine (classes p) c
                            (combiner_taskunits c) (files p) with
                    | (Raise e, fs) =>
                        Uncaught e {| master := update_job self (tu_job_id tu) j;
                                      classes := classes p; files := fs |}
                    | (Ok _, fs) =>
                        Continue {| master := update_job self (tu_job_id tu) j;
                                    classes := classes p; files := fs |}
                    end
                  else
                    Continue {| master := update_job self (tu_job_id tu) j;
                                classes := classes p; files := files p |}
              end
          end
          end
      end
  end.

(** One pass through the body of [while True] in [Master.worker], given
    what [self.messenger.receive] returned. *)
Definition worker_iteration (deserialized_msg : option TaskUnit)
    (p : Process) (received : address * option Message) : outcome :=
  let '(a, msg) := received in
  match msg with
  | None => Continue p
  | Some msg =>
      match msg_type msg with
      | MSG_STATUS => on_status p a msg
      | MSG_JOB => on_job p msg
      | MSG_TASKUNIT_RESULT => on_taskunit_result deserialized_msg p
      | MSG_OTHER _ => Continue p
      end
  end.

(** [Master.worker] over the sequence of values [receive] returns, as far
    as that sequence goes; an uncaught exception ends the loop. *)
Fixpoint worker_run (deserialized_msg : option TaskUnit)
    (p : Process) (received : list (address * option Message)) : outcome :=
  match received with
  | [] => Continue p
  | r :: rest =>
      match worker_iteration deserialized_msg p r with
      | Continue p' => worker_run deserialized_msg p' rest
      | stopped => stopped
      end
  end.

Definition Master_worker : Process -> list (address * option Message) -> outcome :=
  worker_run master_py_deserialized_msg.

End MasterLoop.

(* ===================================================================== *)
(** * commands/create_job.py                                              *)
(* ===================================================================== *)

(** The module [jobs.<jobfile>] as [enqueue_job] reads it: each of its five
    names is defined ([Some]) or not ([None]). *)
Record JobModule : Type := {
  mod_processor : option Processor;
  mod_input_file : option pyval;
  mod_input_data : option pyval;
  mod_split : option split_method;
  mod_combine : option combine_method
}.

(** Attribute access on the module: [AttributeError] for a missing name. *)
Definition getattr {A} (name : string) (attribute : option A) : result A :=
  match attribute with
  | Some v => Ok v
  | None => Raise (AttributeError name)
  end.

(** [try: combiner = Combiner(); combiner.combine = jobcode.combine]
    [except: combiner = None] *)
Definition jobcode_combiner (jobcode : JobModule) : option Combiner :=
  let combiner := Combiner_init in
  match getattr "combine" (mod_combine jobcode) with
  | Ok combine =>
      Some {| combiner_noserialize := combiner_noserialize combiner;
              combiner_taskunits := combiner_taskunits combiner;
              combiner_combine_attr := Some combine |}
  | Raise _ => None
  end.

(** [try: splitter = Splitter(); splitter.split = jobcode.split]
    [except: splitter = None] *)
Definition jobcode_splitter (jobcode : JobModule) : option Splitter :=
  let splitter := Splitter_init in
  match getattr "split" (mod_split jobcode) with
  | Ok split =>
      Some {| splitter_noserialize := splitter_noserialize splitter;
              splitter_split_attr := Some split |}
  | Raise _ => None
  end.

Definition set_job_input_data (j : Job) (d : pyval) : Job :=
  {| job_noserialize := job_noserialize j; job_id := job_id j;
     input_data := d; splitter := splitter j;
     combiner := combiner j; taskunits := taskunits j;
     pending_taskunits := pending_taskunits j |}.

(** How a call of [enqueue_job] goes: an exception leaves it, or the job is
    enqueued for delivery and the function waits for the queue to drain. *)
Inductive submission : Type :=
  | SubmitRaised (e : exn) (m : Messenger) (cls : Classes)
  | SubmitEnqueued (m : Messenger) (cls : Classes).

Definition master_address : address := (lit "0.0.0.0", 33310).

Definition enqueue_job_keywords : list string :=
  ["processor"; "input_file"; "splitter"; "combiner"]%string.

Section CreateJob.
(** [importlib.import_module('jobs.%s' % jobfile)] *)
Variable import_module : str -> result JobModule.
(** [socket.gethostname()] *)
Variable gethostname : str.

Definition enqueue_job (cls : Classes) (jobfile : str) : submission :=
  let m := Messenger_init in
  let my_hostname := gethostname in
  let m := register_destination m gethostname master_address in
  match import_module jobfile with
  | Raise e => SubmitRaised e m cls
  | Ok jobcode =>
      let combiner := jobcode_combiner jobcode in
      let splitter := jobcode_splitter jobcode in
      match getattr "processor" (mod_processor jobcode) with
      | Raise e => SubmitRaised e m cls
      | Ok processor =>
      match getattr "input_file" (mod_input_file jobcode) with
      | Raise e => SubmitRaised e m cls
      | Ok input_file =>
          match Job_new cls None VNone (Some processor) splitter combiner
                        enqueue_job_keywords with
          | (Raise e, cls) => SubmitRaised e m cls
          | (Ok job, cls) =>
              let job :=
                match getattr "input_data" (mod_input_data jobcode) with
                | Ok d => set_job_input_data job d
                | Raise _ => job
                end in
              SubmitEnqueued (send_job m job my_hostname) cls
          end
      end
      end
  end.

End CreateJob.

(* ===================================================================== *)
(** * Statements taken from the specification's wording                   *)
(* ===================================================================== *)

(** The byte representation of an input: text is encoded as UTF-8, bytes
    pass through unchanged. *)
Definition byte_representation (x : pyval) : option bytes :=
  match x with
  | VBytes b => Some b
  | VStr s => result_to_option (utf8_encode s)
  | _ => None
  end.

(** [job_id]: the hex-encoded MD5 digest of the concatenation of the byte
    representations of the four inputs, in that order. *)
Definition job_id_spec (input_data processor_source split_source combine_source : pyval)
  : option str :=
  representations ←
    mapM byte_representation
      [input_data; processor_source; split_source; combine_source];
  Some (hex_of_bytes (md5_digest (concat representations))).

(** Modelled from the spec: [taskunit.compute_taskunit_id] ([taskunit.py] is
    not part of the sources): the scheme of [compute_job_id] over the two
    inputs [(data, processor_source)]. *)
Definition spec_compute_taskunit_id (data : pyval) (processor_code : str)
  : result str :=
  data_bytes ←
    (if isinstance_bytes data then as_bytes data else py_bytes_utf8 data);
  processor_code_bytes ← utf8_encode processor_code;
  Ok (md5_hexdigest (md5_update hashlib_md5 (data_bytes ++ processor_code_bytes))).

(** Lines joined back with the separator. *)
Fixpoint str_join (sep : Z) (lines : list str) : str :=
  match lines with
  | [] => []
  | [l] => l
  | l :: rest => l ++ sep :: str_join sep rest
  end.

(** The worker list and the scheduler's slots are index-aligned. *)
Definition registry_matches_scheduler (p : Process) : Prop :=
  length (slave_nodes (master p)) = length (loads (scheduler (master p))).

Definition final_process (o : outcome) : Process :=
  match o with
  | Continue p => p
  | Uncaught _ p => p
  end.

(** ** A concrete instantiation, used to run the loop on examples *)

Definition example_processor : Processor :=
  {| proc_code := lit "def processor(line): return len(line)" |}.

(** Decimal digits only. *)
Fixpoint decimal_value (acc : Z) (b : bytes) : result Z :=
  match b with
  | [] => Ok acc
  | c :: rest =>
      if (48 <=? c) && (c <=? 57) then decimal_value (10 * acc + (c - 48)) rest
      else Raise ValueError
  end.

Definition example_int_of_utf8 (b : bytes) : result Z :=
  match b with
  | [] => Raise ValueError
  | _ => decimal_value 0 b
  end.

(** A wire format for examples: the payload is the job's input text and
    also names the job. *)
Definition example_collaborators : Collaborators :=
  {| STATE_UP := 1;
     int_of_utf8 := example_int_of_utf8;
     Job_deserialize := fun payload cls =>
       Job_new cls (Some payload) (VStr payload) (Some example_processor)
               None None ["id"; "input_data"; "processor"]%string;
     inspect_getsource := fun p =>
       match p with
       | Some f => Ok (proc_code f)
       | None => Raise TypeError
       end;
     compute_taskunit_id := spec_compute_taskunit_id |}.

Definition example_worker : address := (lit "10.0.0.7", 33311).

Definition status_up_message : Message :=
  {| msg_type := MSG_STATUS; msg_payload := lit "1" |}.

Definition job_message (text : str) : Message :=
  {| msg_type := MSG_JOB; msg_payload := text |}.

(** The text of two equal lines, ["a\na"], and of two different lines,
    ["a\nb"]. *)
Definition two_equal_lines : str := [97; 10; 97].
Definition two_different_lines : str := [97; 10; 98].

Definition taskunit_result_message : Message :=
  {| msg_type := MSG_TASKUNIT_RESULT; msg_payload := lit "{}" |}.

(** The id the master computes for a unit: [compute_taskunit_id] of the
    unit's data and of the source of its processor. *)
Definition unit_id `{Collaborators} (tu : TaskUnit) (taskunit_id : str) : Prop :=
  exists source,
    inspect_getsource (tu_processor tu) = Ok source
    /\ compute_taskunit_id (tu_data tu) source = Ok taskunit_id.

(** What a [TASKUNIT_RESULT] refers to is unknown to the master: no job is
    stored under the result's job id, or that job has no unit under the
    result's unit id. *)
Definition unknown_ids (self : Master) (tu : TaskUnit) : Prop :=
  match jobs self !! tu_job_id tu with
  | None => True
  | Some j =>
      match tu_id tu with
      | None => True
      | Some taskunit_id => taskunits j !! taskunit_id = None
      end
  end.

(** The example process after one worker has registered. *)
Definition registered_process : Process :=
  final_process
    (worker_run (H := example_collaborators) master_py_deserialized_msg
       initial_process [(example_worker, Some status_up_message)]).

(** A result for a job the master has never seen. *)
Definition stray_result : TaskUnit :=
  {| tu_id := Some (lit "5d41402abc4b2a76b9719d911017c592");
     tu_job_id := Some (lit "no-such-job");
     tu_data := VNone; tu_processor := None;
     tu_result := VInt 7; tu_state := Completed; tu_retries := 0 |}.

Definition numeric_result (t : TaskUnit) : Prop := exists n, tu_result t = VInt n.

Definition int_result (n : Z) : TaskUnit :=
  {| tu_id := None; tu_job_id := None; tu_data := VNone; tu_processor := None;
     tu_result := VInt n; tu_state := Completed; tu_retries := 0 |}.

(** The messenger [enqueue_job] has built when it calls [Job]. *)
Definition submitter_messenger (gethostname : str) : Messenger :=
  register_destination Messenger_init gethostname master_address.

(** The exception a call of [enqueue_job] ends in. *)
Definition enqueue_job_exception (import_module : str -> result JobModule)
    (jobfile : str) : exn :=
  match import_module jobfile with
  | Raise e => e
  | Ok jobcode =>
      match mod_processor jobcode, mod_input_file jobcode with
      | None, _ => AttributeError "processor"
      | Some _, None => AttributeError "input_file"
      | Some _, Some _ => TypeError
      end
  end.

Definition module_without_processor : JobModule :=
  {| mod_processor := None; mod_input_file := Some (VStr (lit "input.txt"));
     mod_input_data := Some (VStr (lit "a")); mod_split := None;
     mod_combine := None |}.

Definition module_with_processor_only : JobModule :=
  {| mod_processor := Some example_processor;
     mod_input_file := Some (VStr (lit "input.txt"));
     mod_input_data := Some (VStr (lit "a")); mod_split := None;
     mod_combine := None |}.

(** A character of a lower-case hexadecimal numeral: [0-9a-f]. *)
Definition is_lower_hex (c : Z) : Prop := 48 <= c <= 57 \/ 97 <= c <= 102.

(** [Master.get_node_address] *)
Definition get_node_address (self : Master) (node : RemoteNode) : address :=
  node_address node.

(** [iter(f)] for a function or a bound method [f]: it is not iterable. *)
Definition py_iter_callable {A B : Type} (f : A -> B) : result (list TaskUnit) :=
  Raise TypeError.

(** [Master.process_job]: the [for] statement iterates over the attribute
    [new_job.splitter.split] itself, which is never called; the body would
    print each unit. *)
Definition process_job (cls : Classes) (self : Master) (new_job : Job)
  : result unit :=
  new_taskunits ← py_iter_callable (splitter_split cls (splitter new_job));
  Ok (fold_left (fun _ new_taskunit => tt) new_taskunits tt).

(** The unit as the master files and ships it: the computed id and the id
    of the owning job filled in. *)
Definition stamped (tu : TaskUnit) (taskunit_id : str) (owner : option str)
  : TaskUnit :=
  {| tu_id := Some taskunit_id; tu_job_id := owner;
     tu_data := tu_data tu; tu_processor := tu_processor tu;
     tu_result := tu_result tu; tu_state := tu_state tu;
     tu_retries := tu_retries tu |}.

(** What the dispatch of unit [tu] of job [owner] puts on the outbound
    queue: the stamped unit, for one of the registered workers, with the
    five shipped attribute names. *)
Definition shipped_to_worker `{Collaborators} (workers : list RemoteNode)
    (owner : option str) (tu : TaskUnit) (item : outbound_item) : Prop :=
  exists (taskunit_id : str) (worker : RemoteNode),
    unit_id tu taskunit_id
    /\ worker ∈ workers
    /\ item = OutTaskUnit (stamped tu taskunit_id owner) (node_address worker)
                taskunit_attrs.

(** Every job of the table sits under its own id. *)
Definition jobs_keyed_by_id (p : Process) : Prop :=
  forall (key : option (list Z)) (j : Job),
    jobs (master p) !! key = Some j -> job_id j = key.

(** Every unit a job holds sits under its own id and names that job. *)
Definition units_keyed_by_id (j : Job) : Prop :=
  forall (taskunit_id : list Z) (t : TaskUnit),
    taskunits j !! taskunit_id = Some t ->
    tu_id t = Some taskunit_id /\ tu_job_id t = job_id j.

Definition all_units_keyed_by_id (p : Process) : Prop :=
  forall (key : option (list Z)) (j : Job),
    jobs (master p) !! key = Some j -> units_keyed_by_id j.

(** [Job.deserialize] hands over jobs that hold no units yet. *)
Definition deserialized_without_units `{Collaborators} : Prop :=
  forall payload cls j cls',
    Job_deserialize payload cls = (Ok j, cls') -> taskunits j = ∅.

(** The destination table as the registrations leave it. *)
Definition destinations_of_registrations (workers : list RemoteNode)
  : gmap (list Z) address :=
  match last workers with
  | None => ∅
  | Some worker => {[ lit "slave1" := node_address worker ]}
  end.

(** The polls that brought a message. *)
Definition with_message (received : list (address * option Message))
  : list (address * option Message) :=
  List.filter (fun r => match snd r with Some _ => true | None => false end)
    received.

(** The destination table agrees with the worker list. *)
Definition destinations_follow_registrations (p : Process) : Prop :=
  destinations (messenger (master p))
  = destinations_of_registrations (slave_nodes (master p)).

(** The example wire format with the payload taken as [bytes] input. *)
Definition bytes_job_collaborators : Collaborators :=
  {| STATE_UP := 1;
     int_of_utf8 := example_int_of_utf8;
     Job_deserialize := fun payload cls =>
       Job_new cls (Some payload) (VBytes payload) (Some example_processor)
               None None ["id"; "input_data"; "processor"]%string;
     inspect_getsource := fun p =>
       match p with
       | Some f => Ok (proc_code f)
       | None => Raise TypeError
       end;
     compute_taskunit_id := spec_compute_taskunit_id |}.

(** A result that [sum] cannot add to a number: [None], text or bytes. *)
Definition unsummable_result (t : TaskUnit) : Prop :=
  tu_result t = VNone
  \/ (exists s, tu_result t = VStr s)
  \/ (exists b, tu_result t = VBytes b).

(** The job [j'] the table holds for a received job [j] while the [JOB]
    branch works on it: the same object, so every attribute but the unit
    map is the received one; each filed unit is one the job came with or a
    unit stamped with its computed id and the job's id, and no unit the job
    came with has gone. *)
Definition filed_from `{Collaborators} (j j' : Job) : Prop :=
  job_noserialize j' = job_noserialize j
  /\ job_id j' = job_id j
  /\ input_data j' = input_data j
  /\ splitter j' = splitter j
  /\ combiner j' = combiner j
  /\ pending_taskunits j' = pending_taskunits j
  /\ (forall i t,
        taskunits j' !! i = Some t ->
        taskunits j !! i = Some t
        \/ exists tu, unit_id tu i /\ t = stamped tu i (job_id j))
  /\ (forall i, is_Some (taskunits j !! i) -> is_Some (taskunits j' !! i)).

(** The same, once the branch has also counted the units. *)
Definition stored_for `{Collaborators} (j j' : Job) : Prop :=
  exists j1,
    filed_from j j1
    /\ (j' = j1 \/ j' = set_job_pending j1 (Z.of_nat (size (taskunits j1)))).

(* ===================================================================== *)
(** * Sanity checks                                                       *)
(* ===================================================================== *)

Example md5_empty : md5_hexdigest hashlib_md5 = lit "d41d8cd98f00b204e9800998ecf8427e".
Proof. vm_compute. reflexivity. Qed.

Example md5_abc :
  md5_hexdigest (md5_update hashlib_md5 (lit "abc"))
  = lit "900150983cd24fb0d6963f7d28e17f72".
Proof. vm_compute. reflexivity. Qed.

Example compute_job_id_ex :
  compute_job_id (VStr (lit "a")) (VBytes (lit "b")) (VStr (lit "c")) (VStr [])
  = Ok (lit "900150983cd24fb0d6963f7d28e17f72").
Proof. vm_compute. reflexivity. Qed.

Example utf8_encode_ex :
  utf8_encode [233; 8364; 128512]
  = Ok [195; 169; 226; 130; 172; 240; 159; 152; 128].
Proof. reflexivity. Qed.

Example utf8_encode_surrogate : utf8_encode [0xD800] = Raise UnicodeEncodeError.
Proof. reflexivity. Qed.

Example Splitter_split_ex :
  map tu_data (fst (Splitter_split (VStr [97; 10; 98; 10]) None))
  = [VStr [97]; VStr [98]; VStr []].
Proof. reflexivity. Qed.

(* ===================================================================== *)
(** * Job identity                                                        *)
(* ===================================================================== *)

(** The conversion the source writes out four times. *)
Lemma isinstance_branch_byte_representation (x : pyval) :
  result_to_option
    (if isinstance_bytes x
     then as_bytes x
     else py_bytes_utf8 x)
  = byte_representation x.
Proof. destruct x; reflexivity. Qed.

Lemma result_to_option_bind {A B} (r : result A) (k : A -> result B) :
  result_to_option (r ≫= k) = result_to_option r ≫= (fun a => result_to_option (k a)).
Proof. destruct r; reflexivity. Qed.

(** C8.  [compute_job_id] is the hex-encoded MD5 digest of the concatenation,
    in the order (input_data, processor_code, split_code, combine_code), of
    the byte representations of its four inputs, text being encoded as UTF-8
    and bytes passing through unchanged; it has a value exactly when all four
    inputs have a byte representation, and equal inputs in equal order give
    the same id. *)
Theorem compute_job_id_md5_of_concatenation :
  (forall a b c d : pyval,
     result_to_option (compute_job_id a b c d) = job_id_spec a b c d)
  /\ (forall a b c d ba bb bc bd,
        byte_representation a = Some ba -> byte_representation b = Some bb ->
        byte_representation c = Some bc -> byte_representation d = Some bd ->
        compute_job_id a b c d
        = Ok (hex_of_bytes (md5_digest (ba ++ bb ++ bc ++ bd))))
  /\ (forall a b c d a' b' c' d' : pyval,
        a = a' -> b = b' -> c = c' -> d = d' ->
        compute_job_id a b c d = compute_job_id a' b' c' d').
Proof.
  assert (Hspec : forall a b c d : pyval,
             result_to_option (compute_job_id a b c d) = job_id_spec a b c d).
  { intros a b c d. unfold compute_job_id, job_id_spec.
    rewrite !result_to_option_bind, !isinstance_branch_byte_representation.
    cbn -[md5_digest hex_of_bytes byte_representation].
    destruct (byte_representation a) as [ba|];
      cbn -[md5_digest hex_of_bytes byte_representation]; [|reflexivity].
    rewrite !result_to_option_bind, !isinstance_branch_byte_representation.
    destruct (byte_representation b) as [bb|];
      cbn -[md5_digest hex_of_bytes byte_representation]; [|reflexivity].
    rewrite !result_to_option_bind, !isinstance_branch_byte_representation.
    destruct (byte_representation c) as [bc|];
      cbn -[md5_digest hex_of_bytes byte_representation]; [|reflexivity].
    rewrite !result_to_option_bind, !isinstance_branch_byte_representation.
    destruct (byte_representation d) as [bd|];
      cbn -[md5_digest hex_of_bytes byte_representation]; [|reflexivity].
    unfold md5_hexdigest, md5_update, hashlib_md5.
    cbn -[md5_digest hex_of_bytes]. rewrite app_nil_r. reflexivity. }
  split; [exact Hspec|]. split.
  - intros a b c d ba bb bc bd Ha Hb Hc Hd.
    specialize (Hspec a b c d). unfold job_id_spec in Hspec.
    cbn -[md5_digest hex_of_bytes byte_representation] in Hspec.
    rewrite Ha, Hb, Hc, Hd in Hspec.
    cbn -[md5_digest hex_of_bytes] in Hspec. rewrite app_nil_r in Hspec.
    destruct (compute_job_id a b c d) as [h|e];
      cbn -[md5_digest hex_of_bytes] in Hspec; [|discriminate].
    injection Hspec as ->. reflexivity.
  - intros; subst; reflexivity.
Qed.

Lemma compute_job_id_md5_of_concatenation_witness :
  compute_job_id (VStr [233; 8364]) (VBytes [1; 2]) (VStr []) (VStr [128512])
  = Ok (hex_of_bytes
          (md5_digest ([195; 169; 226; 130; 172] ++ [1; 2] ++ [] ++ [240; 159; 152; 128]))).
Proof.
  apply (proj1 (proj2 compute_job_id_md5_of_concatenation)); reflexivity.
Defined.

(* ===================================================================== *)
(** * The default Splitter                                                *)
(* ===================================================================== *)

Section Split.
Variable sep : Z.

Lemma str_split_nonempty (s : str) : str_split sep s <> [].
Proof.
  destruct s as [|c s]; cbn; [discriminate|].
  destruct (c =? sep); [discriminate|].
  destruct (str_split sep s); discriminate.
Qed.

Lemma str_split_length (s : str) :
  length (str_split sep s) = S (count_occ Z.eq_dec s sep).
Proof.
  induction s as [|c s IH]; cbn; [reflexivity|].
  destruct (Z.eqb_spec c sep) as [->|Hne].
  - destruct (Z.eq_dec sep sep) as [_|Hc]; [|contradiction].
    cbn. rewrite IH. reflexivity.
  - destruct (Z.eq_dec c sep) as [Hc|_]; [contradiction|].
    pose proof (str_split_nonempty s) as Hs.
    destruct (str_split sep s) as [|l ls]; [contradiction|].
    cbn in *. exact IH.
Qed.

Lemma str_join_cons (l : str) (ls : list str) :
  ls <> [] -> str_join sep (l :: ls) = l ++ sep :: str_join sep ls.
Proof. destruct ls; [contradiction|reflexivity]. Qed.

Lemma str_join_split (s : str) : str_join sep (str_split sep s) = s.
Proof.
  induction s as [|c s IH]; cbn [str_split]; [reflexivity|].
  pose proof (str_split_nonempty s) as Hs.
  destruct (Z.eqb_spec c sep) as [->|Hne].
  - rewrite str_join_cons by assumption. cbn. rewrite IH. reflexivity.
  - destruct (str_split sep s) as [|l ls]; [contradiction|].
    destruct ls as [|l' ls].
    + cbn in *. rewrite IH. reflexivity.
    + change (str_join sep ((c :: l) :: l' :: ls))
        with (c :: (l ++ sep :: str_join sep (l' :: ls))).
      change (str_join sep (l :: l' :: ls))
        with (l ++ sep :: str_join sep (l' :: ls)) in IH.
      rewrite IH. reflexivity.
Qed.

Lemma str_split_no_separator (s : str) :
  Forall (fun l => sep ∉ l) (str_split sep s).
Proof.
  induction s as [|c s IH]; cbn [str_split].
  - constructor; [|constructor]. apply not_elem_of_nil.
  - destruct (Z.eqb_spec c sep) as [->|Hne].
    + constructor; [apply not_elem_of_nil|exact IH].
    + destruct (str_split sep s) as [|l ls].
      * constructor; [|constructor].
        intros Hin. apply list_elem_of_singleton in Hin. congruence.
      * inversion IH as [|? ? Hl Hls]; subst.
        constructor; [|exact Hls].
        intros Hin. apply elem_of_cons in Hin as [Heq|Hin]; [congruence|].
        exact (Hl Hin).
Qed.
End Split.

(** C3.  For an input string with N newline characters, the default split
    yields, without raising, exactly N+1 units; their data are the lines, in
    order: joined back with newlines they give the input, and no line
    contains a newline (so none is skipped or merged); each unit carries the
    processor. *)
Theorem Splitter_split_one_unit_per_line (s : str) (processor : option Processor) :
  exists (units : list TaskUnit) (lines : list str),
    Splitter_split (VStr s) processor = (units, None)
    /\ length units = S (count_occ Z.eq_dec s newline)
    /\ map tu_data units = map VStr lines
    /\ str_join newline lines = s
    /\ Forall (fun l => newline ∉ l) lines
    /\ Forall (fun u => tu_processor u = processor /\ tu_result u = VNone) units.
Proof.
  exists (map (fun l => TaskUnit_new (VStr l) processor) (str_split newline s)),
         (str_split newline s).
  split; [reflexivity|]. split.
  - rewrite length_map. apply str_split_length.
  - split; [|split; [apply str_join_split|split; [apply str_split_no_separator|]]].
    + rewrite map_map. reflexivity.
    + apply Forall_map. apply Forall_forall. intros; split; reflexivity.
Qed.

(* ===================================================================== *)
(** * The default Combiner                                                *)
(* ===================================================================== *)

Lemma py_sum_from_numeric (units : list TaskUnit) (acc : Z) :
  Forall numeric_result units ->
  exists total, py_sum_from acc (map tu_result units) = Ok total.
Proof.
  intros Hn. revert acc. induction Hn as [|t units [n Ht] _ IH]; intros acc; cbn.
  - eauto.
  - rewrite Ht. apply IH.
Qed.

(** With [time] bound, the default combiner sums and writes the text. *)
Example Combiner_combine_with_time :
  Combiner_combine_with (Some {| strftime := fun _ => lit "2014-01-01_00:00:00" |})
    [int_result 2; int_result 5; int_result 3] ∅
  = (Ok tt, {[ lit "result_2014-01-01_00:00:00" := lit "10" ]}).
Proof. reflexivity. Qed.

(** C2 (as the code behaves).  On units with integer results the default
    [combine] computes the sum and its text and then stops at the unbound
    name [time]: it raises [NameError] and no file is written. *)
Theorem Combiner_combine_raises_NameError (units : list TaskUnit) (fs : FileSystem) :
  Forall numeric_result units ->
  Combiner_combine (combiner_taskunits (add_taskunits Combiner_init units)) fs
  = (Raise (NameError "time"), fs).
Proof.
  intros Hn. unfold Combiner_combine, Combiner_combine_with, py_sum. cbn [add_taskunits combiner_taskunits Combiner_init app].
  destruct (py_sum_from_numeric units 0 Hn) as [total ->].
  reflexivity.
Qed.

Lemma Combiner_combine_raises_NameError_witness :
  Combiner_combine
    (combiner_taskunits
       (add_taskunits Combiner_init [int_result 2; int_result 5; int_result 3])) ∅
  = (Raise (NameError "time"), ∅).
Proof.
  apply Combiner_combine_raises_NameError.
  repeat constructor; eexists; reflexivity.
Defined.

(* ===================================================================== *)
(** * Job construction                                                    *)
(* ===================================================================== *)

(** C9.  [Job.__init__] stores the processor on the class: after two
    constructions with different processors both jobs read the second
    processor, and the first job's [processor] is no longer what it was
    after its own construction. *)
Theorem Job_init_processor_is_class_attribute
    (cls : Classes) (id1 id2 : option str) (d1 d2 : pyval)
    (p1 p2 : option Processor)
    (s1 s2 : option Splitter) (c1 c2 : option Combiner) :
  p1 <> p2 ->
  let '(j1, cls1) := Job_init cls id1 d1 p1 s1 c1 in
  let '(j2, cls2) := Job_init cls1 id2 d2 p2 s2 c2 in
  job_processor cls1 j1 = Ok p1
  /\ job_processor cls2 j1 = Ok p2
  /\ job_processor cls2 j2 = Ok p2
  /\ job_processor cls2 j1 <> job_processor cls1 j1.
Proof.
  intros Hne. cbn. repeat split. congruence.
Qed.

Lemma Job_init_processor_is_class_attribute_witness :
  let p1 := Some {| proc_code := lit "def processor(x): return 1" |} in
  let p2 := Some {| proc_code := lit "def processor(x): return 2" |} in
  let '(j1, cls1) := Job_init initial_classes (Some (lit "j1")) VNone p1 None None in
  let '(j2, cls2) := Job_init cls1 (Some (lit "j2")) VNone p2 None None in
  job_processor cls1 j1 = Ok p1
  /\ job_processor cls2 j1 = Ok p2
  /\ job_processor cls2 j2 = Ok p2
  /\ job_processor cls2 j1 <> job_processor cls1 j1.
Proof.
  apply (Job_init_processor_is_class_attribute initial_classes
           (Some (lit "j1")) (Some (lit "j2")) VNone VNone
           (Some {| proc_code := lit "def processor(x): return 1" |})
           (Some {| proc_code := lit "def processor(x): return 2" |})
           None None None None).
  discriminate.
Defined.

(* ===================================================================== *)
(** * Job submission                                                      *)
(* ===================================================================== *)

Lemma Job_new_declared_keywords (cls : Classes) id d p s c (keywords : list string) :
  Forall (fun k => k ∈ Job_init_params) keywords ->
  Job_new cls id d p s c keywords
  = (Ok (fst (Job_init cls id d p s c)), snd (Job_init cls id d p s c)).
Proof.
  intros Hk. unfold Job_new.
  assert (forallb (fun k => bool_decide (k ∈ Job_init_params)) keywords = true) as ->.
  { apply forallb_forall. intros k Hin. apply bool_decide_eq_true.
    rewrite Forall_forall in Hk. apply Hk. apply list_elem_of_In. exact Hin. }
  reflexivity.
Qed.

Lemma Job_new_input_file (cls : Classes) id d p s c :
  Job_new cls id d p s c enqueue_job_keywords = (Raise TypeError, cls).
Proof. reflexivity. Qed.

Section Submission.
Variable import_module : str -> result JobModule.
Variable gethostname : str.

(** C10 (amended).  Every call of [enqueue_job] ends in an exception before
    [send_job]: nothing is enqueued and no class attribute is assigned.
    The exception is the [TypeError] of [Job]'s constructor, which does not
    declare [input_file], whenever the job module can be imported and
    defines [processor] and [input_file]; otherwise it is the import error
    or the [AttributeError] of the missing name. *)
Theorem enqueue_job_always_raises (cls : Classes) (jobfile : str) :
  enqueue_job import_module gethostname cls jobfile
  = SubmitRaised (enqueue_job_exception import_module jobfile)
      (submitter_messenger gethostname) cls
  /\ outbound_queue (submitter_messenger gethostname) = []
  /\ (forall jobcode,
        import_module jobfile = Ok jobcode ->
        is_Some (mod_processor jobcode) -> is_Some (mod_input_file jobcode) ->
        enqueue_job_exception import_module jobfile = TypeError).
Proof.
  unfold enqueue_job, enqueue_job_exception, submitter_messenger.
  split; [|split; [reflexivity|]].
  - destruct (import_module jobfile) as [jobcode|e]; [|reflexivity].
    destruct (mod_processor jobcode); [|reflexivity].
    destruct (mod_input_file jobcode); [|reflexivity].
    cbn [getattr]. rewrite Job_new_input_file. reflexivity.
  - intros jobcode -> [p ->] [f ->]. reflexivity.
Qed.

(** What [enqueue_job] and [Job.__init__] are written to do about missing
    names.  A job module without [processor] makes [enqueue_job] raise
    before anything is enqueued.  For a module without [split] or [combine]
    [enqueue_job] prepares [None], and a call of [Job] that passes declared
    keywords only installs a fresh default [Splitter] or [Combiner] for
    [None]. *)
Theorem missing_processor_aborts_missing_strategy_defaults
    (cls : Classes) (jobfile : str) (jobcode : JobModule) :
  import_module jobfile = Ok jobcode ->
  (mod_processor jobcode = None ->
     enqueue_job import_module gethostname cls jobfile
     = SubmitRaised (AttributeError "processor") (submitter_messenger gethostname) cls
     /\ outbound_queue (submitter_messenger gethostname) = [])
  /\ (mod_split jobcode = None -> jobcode_splitter jobcode = None)
  /\ (mod_combine jobcode = None -> jobcode_combiner jobcode = None)
  /\ (forall id d p (c : option Combiner) keywords,
        Forall (fun k => k ∈ Job_init_params) keywords ->
        exists j cls',
          Job_new cls id d p None c keywords = (Ok j, cls')
          /\ splitter j = Splitter_init
          /\ splitter_split cls' (splitter j) = Splitter_split_attr cls)
  /\ (forall id d p (s : option Splitter) keywords,
        Forall (fun k => k ∈ Job_init_params) keywords ->
        exists j cls',
          Job_new cls id d p s None keywords = (Ok j, cls')
          /\ combiner j = Combiner_init
          /\ combiner_combine cls' (combiner j) = Combiner_combine_attr cls).
Proof.
  intros Himport.
  split; [|split; [|split; [|split]]].
  - intros Hp. split; [|reflexivity].
    unfold enqueue_job. rewrite Himport, Hp. reflexivity.
  - unfold jobcode_splitter. intros ->. reflexivity.
  - unfold jobcode_combiner. intros ->. reflexivity.
  - intros id d p c keywords Hk. eexists _, _.
    rewrite (Job_new_declared_keywords _ _ _ _ _ _ _ Hk). cbn. eauto.
  - intros id d p s keywords Hk. eexists _, _.
    rewrite (Job_new_declared_keywords _ _ _ _ _ _ _ Hk). cbn. eauto.
Qed.
End Submission.

(** C10 as stated fails: a job module without [processor] makes
    [enqueue_job] raise [AttributeError], not [TypeError]. *)
Lemma enqueue_job_AttributeError_not_TypeError :
  enqueue_job (fun _ => Ok module_without_processor) (lit "master") initial_classes
    (lit "wordcount")
  = SubmitRaised (AttributeError "processor")
      (submitter_messenger (lit "master")) initial_classes
  /\ ~ (forall (import_module : str -> result JobModule) gethostname cls jobfile,
          exists m cls',
            enqueue_job import_module gethostname cls jobfile
            = SubmitRaised TypeError m cls').
Proof.
  split; [reflexivity|].
  intros Hall.
  destruct (Hall (fun _ => Ok module_without_processor) (lit "master")
              initial_classes (lit "wordcount")) as (m & cls' & Heq).
  discriminate Heq.
Qed.

Lemma missing_processor_aborts_missing_strategy_defaults_witness :
  enqueue_job (fun _ => Ok module_without_processor) (lit "master") initial_classes
    (lit "wordcount")
  = SubmitRaised (AttributeError "processor")
      (submitter_messenger (lit "master")) initial_classes
  /\ jobcode_splitter module_without_processor = None
  /\ jobcode_combiner module_without_processor = None.
Proof.
  destruct (missing_processor_aborts_missing_strategy_defaults
              (fun _ => Ok module_without_processor) (lit "master")
              initial_classes (lit "wordcount") module_without_processor
              eq_refl) as (Hp & Hs & Hc & _).
  split; [exact (proj1 (Hp eq_refl))|].
  split; [exact (Hs eq_refl)|exact (Hc eq_refl)].
Defined.

(** A module that defines [processor] and [input_file] gets as far as the
    call of [Job], which rejects the keyword [input_file]. *)
Example enqueue_job_TypeError :
  enqueue_job (fun _ => Ok module_with_processor_only) (lit "master")
    initial_classes (lit "wordcount")
  = SubmitRaised TypeError (submitter_messenger (lit "master")) initial_classes.
Proof. reflexivity. Qed.

(** With the class attributes untouched, the default a job falls back to is
    the line splitter and the summing combiner. *)
Example Job_default_strategies :
  let j := fst (Job_init initial_classes None VNone (Some example_processor) None None) in
  let cls := snd (Job_init initial_classes None VNone (Some example_processor) None None) in
  splitter_split cls (splitter j) = Splitter_split
  /\ combiner_combine cls (combiner j) = Combiner_combine.
Proof. split; reflexivity. Qed.

(* ===================================================================== *)
(** * The master loop                                                     *)
(* ===================================================================== *)

Lemma size_list_to_set_remove_dups (ids : list (list Z)) :
  size (list_to_set ids : gset (list Z)) = length (remove_dups ids).
Proof.
  rewrite <- (size_list_to_set (C := gset (list Z)) (remove_dups ids))
    by apply NoDup_remove_dups.
  f_equal. apply set_eq. intros x.
  rewrite !elem_of_list_to_set, elem_of_remove_dups. reflexivity.
Qed.

Lemma length_remove_dups_le (ids : list (list Z)) :
  (length (remove_dups ids) <= length ids)%nat.
Proof.
  induction ids as [|i ids IH]; cbn; [lia|].
  destruct (decide_rel elem_of i ids); cbn; lia.
Qed.

Lemma remove_dups_NoDup (ids : list (list Z)) : NoDup ids -> remove_dups ids = ids.
Proof.
  induction 1 as [|i ids Hin _ IH]; cbn; [reflexivity|].
  destruct (decide_rel elem_of i ids); [contradiction|]. rewrite IH. reflexivity.
Qed.

Section MasterLoopFacts.
Context `{Collaborators}.

Lemma schedule_job_slots (s s' : MinMakespan) (tu : TaskUnit) (i : nat) :
  schedule_job s tu = Ok (i, s') -> length (loads s') = length (loads s).
Proof.
  unfold schedule_job. destruct (loads s) as [|x rest] eqn:Hl; [discriminate|].
  intros [= <- <-]. cbn [loads]. apply length_alter.
Qed.

(** Whatever way the body of the dispatch loop ends, it leaves the worker
    list, the number of scheduler slots and the job table alone. *)
Lemma dispatch_taskunit_frame self j tu self' j' ending :
  dispatch_taskunit self j tu = (self', j', ending) ->
  slave_nodes self' = slave_nodes self
  /\ length (loads (scheduler self')) = length (loads (scheduler self))
  /\ jobs self' = jobs self
  /\ job_id j' = job_id j.
Proof.
  unfold dispatch_taskunit.
  destruct (inspect_getsource _) as [source|e]; [|intros [= <- <- <-]; auto].
  destruct (compute_taskunit_id _ _) as [i|e]; [|intros [= <- <- <-]; auto].
  destruct (schedule_job _ _) as [[next sched]|e] eqn:Hs;
    [|intros [= <- <- <-]; auto].
  apply schedule_job_slots in Hs.
  cbn. destruct (slave_nodes self !! next);
    intros [= <- <- <-]; cbn; auto.
Qed.

Lemma dispatch_taskunits_frame units : forall self j self' j' ending,
  dispatch_taskunits self j units = (self', j', ending) ->
  slave_nodes self' = slave_nodes self
  /\ length (loads (scheduler self')) = length (loads (scheduler self))
  /\ jobs self' = jobs self
  /\ job_id j' = job_id j.
Proof.
  induction units as [|tu units IH]; intros self j self' j' ending; cbn.
  - intros [= <- <- <-]; auto.
  - destruct (dispatch_taskunit self j tu) as [[self1 j1] [e|]] eqn:H1.
    + intros [= <- <- <-]. eapply dispatch_taskunit_frame; eauto.
    + intros H2. apply dispatch_taskunit_frame in H1 as (? & ? & ? & ?).
      apply IH in H2 as (? & ? & ? & ?). repeat split; congruence.
Qed.

(** A pass of the loop body that completes stores the unit under its
    computed id and enqueues exactly one item. *)
Lemma dispatch_taskunit_completes self j tu self' j' :
  dispatch_taskunit self j tu = (self', j', None) ->
  exists i,
    unit_id tu i
    /\ dom (taskunits j') = {[ i ]} ∪ dom (taskunits j)
    /\ pending_taskunits j' = pending_taskunits j
    /\ length (outbound_queue (messenger self'))
       = S (length (outbound_queue (messenger self))).
Proof.
  unfold dispatch_taskunit, unit_id.
  destruct (inspect_getsource _) as [source|e] eqn:Hsrc; [|discriminate].
  destruct (compute_taskunit_id _ _) as [i|e] eqn:Hid; [|discriminate].
  destruct (schedule_job _ _) as [[next sched]|e]; [|discriminate].
  cbn. destruct (slave_nodes self !! next); [|discriminate].
  intros [= <- <-]. exists i. cbn. split; [eauto|].
  split; [apply dom_insert_L|]. split; [reflexivity|].
  rewrite length_app. cbn. lia.
Qed.

Lemma dispatch_taskunits_completes units : forall self j self' j',
  dispatch_taskunits self j units = (self', j', None) ->
  exists ids,
    Forall2 unit_id units ids
    /\ dom (taskunits j') = list_to_set ids ∪ dom (taskunits j)
    /\ pending_taskunits j' = pending_taskunits j
    /\ length (outbound_queue (messenger self'))
       = (length (outbound_queue (messenger self)) + length units)%nat.
Proof.
  induction units as [|tu units IH]; intros self j self' j'; cbn.
  - intros [= <- <-]. exists []. split; [constructor|].
    split; [rewrite list_to_set_nil, (left_id_L ∅ (∪)); reflexivity|].
    split; [reflexivity|lia].
  - destruct (dispatch_taskunit self j tu) as [[self1 j1] [e|]] eqn:H1;
      [discriminate|].
    intros H2. apply dispatch_taskunit_completes in H1 as (i & Hi & Hd1 & Hp1 & Hq1).
    apply IH in H2 as (ids & Hids & Hd2 & Hp2 & Hq2).
    exists (i :: ids). split; [constructor; assumption|].
    split.
    { rewrite Hd2, Hd1, list_to_set_cons, (comm_L (∪) {[i]} (list_to_set ids)).
      rewrite (assoc_L (∪)). reflexivity. }
    split; [congruence|lia].
Qed.
End MasterLoopFacts.

Section MasterLoopInvariant.
Context `{Collaborators}.

Lemma on_status_registry p a msg :
  registry_matches_scheduler p ->
  registry_matches_scheduler (final_process (on_status p a msg)).
Proof.
  unfold on_status, registry_matches_scheduler. intros Hinv.
  destruct (int_of_utf8 _) as [status|e]; [|exact Hinv].
  destruct (status =? STATE_UP); [|exact Hinv].
  cbn. rewrite !length_app, Hinv. reflexivity.
Qed.

Lemma on_job_registry p msg :
  registry_matches_scheduler p ->
  registry_matches_scheduler (final_process (on_job p msg)).
Proof.
  unfold on_job, registry_matches_scheduler. intros Hinv.
  destruct (Job_deserialize _ _) as [[j|e] cls]; [|exact Hinv].
  destruct (job_processor cls j) as [processor|e]; [|exact Hinv].
  destruct (splitter_split _ _ _ _) as [units ending].
  destruct (dispatch_taskunits _ _ _) as [[self' j'] stopped] eqn:Hd.
  apply dispatch_taskunits_frame in Hd as (Hn & Hl & _ & _).
  cbn in Hn, Hl.
  destruct stopped as [e|]; [|destruct ending as [e|]]; cbn; congruence.
Qed.

Lemma on_taskunit_result_registry d p :
  registry_matches_scheduler p ->
  registry_matches_scheduler (final_process (on_taskunit_result d p)).
Proof.
  unfold on_taskunit_result, registry_matches_scheduler. intros Hinv.
  repeat case_match; cbn; exact Hinv.
Qed.

Lemma worker_iteration_registry d p r :
  registry_matches_scheduler p ->
  registry_matches_scheduler (final_process (worker_iteration d p r)).
Proof.
  intros Hinv. destruct r as [a [msg|]]; cbn; [|exact Hinv].
  destruct (msg_type msg).
  - apply on_status_registry, Hinv.
  - apply on_job_registry, Hinv.
  - apply on_taskunit_result_registry, Hinv.
  - exact Hinv.
Qed.

Lemma worker_run_registry d received : forall p,
  registry_matches_scheduler p ->
  registry_matches_scheduler (final_process (worker_run d p received)).
Proof.
  induction received as [|r rest IH]; intros p Hinv; cbn; [exact Hinv|].
  pose proof (worker_iteration_registry d p r Hinv) as Hstep.
  destruct (worker_iteration d p r) as [p'|e p']; cbn in *.
  - apply IH, Hstep.
  - exact Hstep.
Qed.

(** C5.  A [STATUS] message whose payload reads [STATE_UP] appends exactly
    one [RemoteNode] for the sender, whatever is registered already, and
    exactly one scheduler slot in the same pass; from the initial master
    the worker list and the slots therefore have the same length after any
    sequence of received messages. *)
Theorem status_up_adds_one_node_and_one_slot :
  (forall d p a msg,
     msg_type msg = MSG_STATUS ->
     int_of_utf8 (msg_payload msg) = Ok STATE_UP ->
     exists p',
       worker_iteration d p (a, Some msg) = Continue p'
       /\ slave_nodes (master p') = slave_nodes (master p) ++ [RemoteNode_new None a]
       /\ loads (scheduler (master p')) = loads (scheduler (master p)) ++ [0]
       /\ jobs (master p') = jobs (master p))
  /\ (forall d received,
        registry_matches_scheduler
          (final_process (worker_run d initial_process received))).
Proof.
  split.
  - intros d p a msg Hty Hup. cbn. rewrite Hty. unfold on_status.
    rewrite Hup, Z.eqb_refl. eexists. split; [reflexivity|]. cbn. auto.
  - intros d received. apply worker_run_registry. reflexivity.
Qed.

(** C1 (as the code behaves).  On every [TASKUNIT_RESULT] message the loop
    body stops at the unbound name [deserialized_msg]: [NameError] leaves
    the loop and nothing has been recorded. *)
Theorem taskunit_result_raises_NameError (p : Process) (a : address) (msg : Message) :
  msg_type msg = MSG_TASKUNIT_RESULT ->
  worker_iteration master_py_deserialized_msg p (a, Some msg)
  = Uncaught (NameError "deserialized_msg") p
  /\ forall rest,
       Master_worker p ((a, Some msg) :: rest)
       = Uncaught (NameError "deserialized_msg") p.
Proof.
  intros Hty. unfold Master_worker. cbn. rewrite Hty. split; reflexivity.
Qed.

(** C6 (amended).  A [TASKUNIT_RESULT] whose job id or unit id the master
    does not know makes an exception leave the loop: the message is not
    skipped, the loop does not go on, and the process is as it was before
    the message. *)
Theorem unknown_result_leaves_loop d (p : Process) (a : address) (msg : Message) :
  msg_type msg = MSG_TASKUNIT_RESULT ->
  (forall tu, d = Some tu -> unknown_ids (master p) tu) ->
  exists e,
    worker_iteration d p (a, Some msg) = Uncaught e p
    /\ forall rest, worker_run d p ((a, Some msg) :: rest) = Uncaught e p.
Proof.
  intros Hty Hunknown.
  assert (exists e, worker_iteration d p (a, Some msg) = Uncaught e p) as [e He].
  { cbn. rewrite Hty. unfold on_taskunit_result.
    destruct d as [tu|]; cbn; [|eauto].
    specialize (Hunknown tu eq_refl). unfold unknown_ids in Hunknown.
    destruct (jobs (master p) !! tu_job_id tu) as [j|]; [|eauto].
    destruct (tu_id tu) as [i|]; [|eauto].
    rewrite Hunknown. eauto. }
  exists e. split; [exact He|]. intros rest. cbn [worker_run]. rewrite He.
  reflexivity.
Qed.
End MasterLoopInvariant.

Section JobDispatch.
Context `{Collaborators}.

(** C4 (amended).  When a [JOB] message has been handled to the end, the
    splitter having yielded K units, all K have been enqueued for a worker
    and the stored job's [pending_taskunits] is the number of entries of
    its unit table, that is the number of distinct ids among the K units;
    it is at most K, and it is K when the ids are pairwise different. *)
Theorem on_job_pending_counts_distinct_ids
    (p p' : Process) (msg : Message) (j : Job) (cls : Classes)
    (processor : option Processor) (units : list TaskUnit) :
  Job_deserialize (msg_payload msg) (classes p) = (Ok j, cls) ->
  taskunits j = ∅ ->
  job_processor cls j = Ok processor ->
  splitter_split cls (splitter j) (input_data j) processor = (units, None) ->
  on_job p msg = Continue p' ->
  exists (j' : Job) (ids : list (list Z)),
    jobs (master p') !! job_id j = Some j'
    /\ Forall2 unit_id units ids
    /\ length (outbound_queue (messenger (master p')))
       = (length (outbound_queue (messenger (master p))) + length units)%nat
    /\ dom (taskunits j') = list_to_set ids
    /\ pending_taskunits j' = Some (Z.of_nat (length (remove_dups ids)))
    /\ (length (remove_dups ids) <= length units)%nat
    /\ (NoDup ids -> pending_taskunits j' = Some (Z.of_nat (length units))).
Proof.
  intros Hde Hempty Hproc Hsplit. unfold on_job.
  rewrite Hde, Hproc, Hsplit.
  destruct (dispatch_taskunits _ _ _) as [[self' j1] [e|]] eqn:Hd; [discriminate|].
  intros [= <-].
  pose proof (dispatch_taskunits_frame _ _ _ _ _ _ Hd) as (_ & _ & _ & Hid).
  apply dispatch_taskunits_completes in Hd as (ids & Hids & Hdom & _ & Hq).
  rewrite Hempty, dom_empty_L, (right_id_L ∅ (∪)) in Hdom.
  assert (Hsize : size (taskunits j1) = length (remove_dups ids)).
  { rewrite <- size_dom, Hdom. apply size_list_to_set_remove_dups. }
  exists (set_job_pending j1 (Z.of_nat (size (taskunits j1)))), ids.
  cbn. rewrite Hid, lookup_insert_eq, Hsize.
  pose proof (Forall2_length _ _ _ Hids) as Hlen.
  pose proof (length_remove_dups_le ids) as Hle.
  repeat split; try assumption; try lia.
  intros Hnd. rewrite (remove_dups_NoDup ids Hnd). congruence.
Qed.
End JobDispatch.

(** C4 as stated fails.  With one worker registered, a job whose input is the
    two equal lines ["a\na"] is split into two units and both are
    dispatched, but they share one id and [pending_taskunits] is 1. *)
Lemma on_job_pending_below_unit_count :
  exists (p' : Process) (j' : Job) (units : list TaskUnit),
    on_job (H := example_collaborators) registered_process
      (job_message two_equal_lines) = Continue p'
    /\ Splitter_split (VStr two_equal_lines) (Some example_processor) = (units, None)
    /\ length units = 2%nat
    /\ length (outbound_queue (messenger (master p'))) = 2%nat
    /\ jobs (master p') !! Some two_equal_lines = Some j'
    /\ pending_taskunits j' = Some 1
    /\ pending_taskunits j' <> Some (Z.of_nat (length units)).
Proof.
  eexists _, _, _.
  split; [vm_compute; reflexivity|].
  split; [vm_compute; reflexivity|].
  split; [reflexivity|].
  split; [vm_compute; reflexivity|].
  split; [vm_compute; reflexivity|].
  split; [reflexivity|discriminate].
Qed.

Lemma on_job_pending_counts_distinct_ids_witness :
  let p' := final_process
              (on_job (H := example_collaborators) registered_process
                 (job_message two_different_lines)) in
  exists (j' : Job) (ids : list (list Z)),
    jobs (master p') !! Some two_different_lines = Some j'
    /\ length ids = 2%nat
    /\ NoDup ids
    /\ dom (taskunits j') = list_to_set ids
    /\ pending_taskunits j' = Some 2.
Proof.
  intros p'.
  destruct (on_job_pending_counts_distinct_ids (H := example_collaborators)
              registered_process p' (job_message two_different_lines)
              (fst (Job_init initial_classes (Some two_different_lines)
                      (VStr two_different_lines) (Some example_processor) None None))
              (snd (Job_init initial_classes (Some two_different_lines)
                      (VStr two_different_lines) (Some example_processor) None None))
              (Some example_processor)
              (fst (Splitter_split (VStr two_different_lines) (Some example_processor))))
    as (j' & ids & Hj & Hids & _ & Hdom & Hpending & _ & Hnodup).
  - reflexivity.
  - reflexivity.
  - reflexivity.
  - reflexivity.
  - vm_compute. reflexivity.
  - exists j', ids.
    assert (Hlen : length ids = 2%nat)
      by (rewrite <- (Forall2_length _ _ _ Hids); reflexivity).
    assert (Hnd : NoDup ids).
    { destruct ids as [|i1 [|i2 [|? ?]]]; try discriminate Hlen.
      inversion Hids as [|? ? ? ? (s1 & Hs1 & Hi1) Hrest]; subst.
      inversion Hrest as [|? ? ? ? (s2 & Hs2 & Hi2) _]; subst.
      cbn in Hs1, Hs2. injection Hs1 as <-. injection Hs2 as <-.
      vm_compute in Hi1, Hi2. injection Hi1 as <-. injection Hi2 as <-.
      apply NoDup_cons. split; [|apply NoDup_singleton].
      intros Hin. apply list_elem_of_singleton in Hin. discriminate Hin. }
    repeat split; try assumption.
    rewrite (Hnodup Hnd). reflexivity.
Defined.

Lemma status_up_adds_one_node_and_one_slot_witness :
  exists p',
    worker_iteration (H := example_collaborators) master_py_deserialized_msg
      registered_process (example_worker, Some status_up_message) = Continue p'
    /\ slave_nodes (master p')
       = [RemoteNode_new None example_worker; RemoteNode_new None example_worker]
    /\ loads (scheduler (master p')) = [0; 0].
Proof.
  destruct (proj1 (status_up_adds_one_node_and_one_slot (H := example_collaborators))
              master_py_deserialized_msg registered_process example_worker
              status_up_message eq_refl eq_refl)
    as (p' & Hstep & Hnodes & Hloads & _).
  exists p'. split; [exact Hstep|]. split; [exact Hnodes|exact Hloads].
Defined.

Lemma taskunit_result_raises_NameError_witness :
  worker_iteration (H := example_collaborators) master_py_deserialized_msg
    registered_process (example_worker, Some taskunit_result_message)
  = Uncaught (NameError "deserialized_msg") registered_process.
Proof.
  apply (taskunit_result_raises_NameError (H := example_collaborators)
           registered_process example_worker taskunit_result_message).
  reflexivity.
Defined.

(** C6 as stated fails.  A result for a job the master has never seen does
    not let the loop continue: as the module stands the pass ends in
    [NameError], and with [deserialized_msg] bound to the unit the message
    carries it ends in the [KeyError] of the job-table lookup. *)
Lemma unknown_result_stops_loop :
  worker_iteration (H := example_collaborators) master_py_deserialized_msg
    registered_process (example_worker, Some taskunit_result_message)
  = Uncaught (NameError "deserialized_msg") registered_process
  /\ worker_iteration (H := example_collaborators) (Some stray_result)
       registered_process (example_worker, Some taskunit_result_message)
     = Uncaught KeyError registered_process
  /\ unknown_ids (master registered_process) stray_result
  /\ ~ (exists p',
          worker_iteration (H := example_collaborators) master_py_deserialized_msg
            registered_process (example_worker, Some taskunit_result_message)
          = Continue p').
Proof.
  split; [reflexivity|]. split; [reflexivity|]. split; [exact I|].
  intros (p' & Hp'). discriminate Hp'.
Qed.

Lemma unknown_result_leaves_loop_witness :
  exists e,
    worker_iteration (H := example_collaborators) (Some stray_result)
      registered_process (example_worker, Some taskunit_result_message)
    = Uncaught e registered_process.
Proof.
  destruct (unknown_result_leaves_loop (H := example_collaborators)
              (Some stray_result) registered_process example_worker
              taskunit_result_message eq_refl) as (e & He & _).
  - intros tu [= <-]. exact I.
  - exists e. exact He.
Defined.

(* ===================================================================== *)
(** * What the result branch does once its unit is in hand                *)
(* ===================================================================== *)

Section ResultBranch.
Context `{Collaborators}.

(** With [deserialized_msg] bound to a unit the master knows, and other
    units of the job still outstanding, the branch records the result and
    the state on the stored unit and takes exactly one off
    [pending_taskunits]. *)
Lemma on_taskunit_result_recorded
    (tu t : TaskUnit) (p : Process) (j : Job) (taskunit_id : str) (pending : Z) :
  jobs (master p) !! tu_job_id tu = Some j ->
  tu_id tu = Some taskunit_id ->
  taskunits j !! taskunit_id = Some t ->
  pending_taskunits j = Some pending ->
  pending - 1 <> 0 ->
  exists (p' : Process) (j' : Job) (t' : TaskUnit),
    on_taskunit_result (Some tu) p = Continue p'
    /\ jobs (master p') !! tu_job_id tu = Some j'
    /\ pending_taskunits j' = Some (pending - 1)
    /\ taskunits j' !! taskunit_id = Some t'
    /\ tu_result t' = tu_result tu
    /\ tu_state t' = tu_state tu
    /\ tu_data t' = tu_data t
    /\ files p' = files p.
Proof.
  intros Hj Hid Ht Hpending Hnz. unfold on_taskunit_result. cbn [load_global].
  rewrite Hj, Hid, Ht. cbn [set_job_taskunits pending_taskunits].
  rewrite Hpending.
  destruct (Z.eqb_spec (pending - 1) 0) as [Hz|_]; [contradiction|].
  eexists _, _, _. split; [reflexivity|]. cbn [master update_job jobs].
  split; [apply lookup_insert_eq|]. cbn [set_job_pending pending_taskunits taskunits
                                         set_job_taskunits].
  split; [reflexivity|]. split; [apply lookup_insert_eq|].
  repeat split; reflexivity.
Qed.

(** When the last outstanding unit reports, every unit of the job is handed
    to the combiner and [combine] is invoked: the pass ends the way that
    call does, and keeps the files it wrote. *)
Lemma on_taskunit_result_combines
    (tu t : TaskUnit) (p : Process) (j : Job) (taskunit_id : str) :
  jobs (master p) !! tu_job_id tu = Some j ->
  tu_id tu = Some taskunit_id ->
  taskunits j !! taskunit_id = Some t ->
  pending_taskunits j = Some 1 ->
  exists units : list TaskUnit,
    length units = size (taskunits j)
    /\ forall r fs,
         combiner_combine (classes p) (combiner j)
           (combiner_taskunits (combiner j) ++ units) (files p) = (r, fs) ->
         files (final_process (on_taskunit_result (Some tu) p)) = fs
         /\ match r with
            | Ok _ => exists p', on_taskunit_result (Some tu) p = Continue p'
            | Raise e => exists p', on_taskunit_result (Some tu) p = Uncaught e p'
            end.
Proof.
  intros Hj Hid Ht Hpending. unfold on_taskunit_result. cbn [load_global].
  rewrite Hj, Hid, Ht. cbn [set_job_taskunits pending_taskunits].
  rewrite Hpending. change (1 - 1 =? 0) with true. cbv iota.
  cbn [set_job_pending taskunits combiner add_taskunits combiner_taskunits
       set_job_combiner].
  exists ((map_to_list
             (<[taskunit_id :=
                  {| tu_id := tu_id t; tu_job_id := tu_job_id t;
                     tu_data := tu_data t; tu_processor := tu_processor t;
                     tu_result := tu_result tu; tu_state := tu_state tu;
                     tu_retries := tu_retries t |}]> (taskunits j))).*2).
  split.
  - rewrite length_fmap. rewrite (length_map_to_list (M := gmap (list Z))).
    rewrite map_size_insert_Some by eauto. reflexivity.
  - intros r fs Hc. unfold combiner_combine in *.
    cbn [combiner_combine_attr combiner_taskunits add_taskunits combiner
         taskunits set_job_taskunits set_job_pending set_job_combiner] in *.
    rewrite Hc. destruct r as [[]|e]; cbn; eauto.
Qed.
End ResultBranch.

(* ===================================================================== *)
(** * Dispatch goes through; equal units are counted once                 *)
(* ===================================================================== *)

Lemma argmin_from_bound (l : list Z) : forall (best_i : nat) (best : Z) (i : nat),
  (best_i < i)%nat -> (argmin_from best_i best i l < i + length l)%nat.
Proof.
  induction l as [|x l IH]; intros best_i best i Hlt; cbn; [lia|].
  destruct (x <? best).
  - specialize (IH i x (S i)). lia.
  - specialize (IH best_i best (S i)). lia.
Qed.

Lemma schedule_job_in_range (s : MinMakespan) :
  loads s <> [] ->
  exists i s',
    (forall tu, schedule_job s tu = Ok (i, s')) /\ (i < length (loads s))%nat.
Proof.
  unfold schedule_job. destruct (loads s) as [|x rest]; [contradiction|].
  intros _. eexists _, _. split; [reflexivity|].
  pose proof (argmin_from_bound rest 0 x 1). cbn. lia.
Qed.

Lemma length_remove_dups_lt (ids : list (list Z)) :
  ~ NoDup ids -> (length (remove_dups ids) < length ids)%nat.
Proof.
  induction ids as [|i ids IH]; intros Hdup.
  - destruct Hdup. constructor.
  - cbn. pose proof (length_remove_dups_le ids).
    destruct (decide_rel elem_of i ids) as [Hin|Hnin]; [lia|].
    cbn. apply Nat.succ_lt_mono in IH; [exact IH|].
    intros Hnd. apply Hdup. constructor; assumption.
Qed.

Section DispatchCompletes.
Context `{Collaborators}.

Lemma unit_id_functional (tu tu' : TaskUnit) (i i' : str) :
  tu_data tu = tu_data tu' -> tu_processor tu = tu_processor tu' ->
  unit_id tu i -> unit_id tu' i' -> i = i'.
Proof.
  intros Hd Hp (s & Hs & Hi) (s' & Hs' & Hi').
  rewrite Hd, Hp in *. congruence.
Qed.

(** Two units with the same data and the same processor, at different
    places of the split, make the ids repeat. *)
Lemma equal_units_repeat_an_id (units : list TaskUnit) (ids : list (list Z))
    (a b : nat) (u u' : TaskUnit) :
  Forall2 unit_id units ids ->
  units !! a = Some u -> units !! b = Some u' -> a <> b ->
  tu_data u = tu_data u' -> tu_processor u = tu_processor u' ->
  ~ NoDup ids.
Proof.
  intros Hids Ha Hb Hab Hd Hp Hnd.
  destruct (Forall2_lookup_l _ _ _ _ _ Hids Ha) as (i & Hia & Hi).
  destruct (Forall2_lookup_l _ _ _ _ _ Hids Hb) as (i' & Hib & Hi').
  pose proof (unit_id_functional u u' i i' Hd Hp Hi Hi') as <-.
  apply Hab. eapply NoDup_lookup; eauto.
Qed.

(** With at least one worker registered and the slots aligned with the
    worker list, the dispatch loop runs to its end whenever the ids of the
    units can be computed: the scheduler always names an existing worker. *)
Lemma dispatch_taskunits_total (units : list TaskUnit) : forall self j,
  slave_nodes self <> [] ->
  length (slave_nodes self) = length (loads (scheduler self)) ->
  Forall (fun u => exists i, unit_id u i) units ->
  exists self' j', dispatch_taskunits self j units = (self', j', None).
Proof.
  induction units as [|tu units IH]; intros self j Hne Hlen Hall; cbn.
  - eauto.
  - inversion Hall as [|? ? (i & source & Hsrc & Hid) Hrest]; subst.
    destruct (schedule_job_in_range (scheduler self)) as (n & s' & Hs & Hn).
    { intros Hnil. rewrite Hnil in Hlen. destruct (slave_nodes self);
        [contradiction|discriminate]. }
    destruct (lookup_lt_is_Some_2 (slave_nodes self) n) as [slave Hslave];
      [lia|].
    assert (exists self1 j1, dispatch_taskunit self j tu = (self1, j1, None))
      as (self1 & j1 & H1).
    { unfold dispatch_taskunit. rewrite Hsrc, Hid, Hs. cbn. rewrite Hslave.
      eauto. }
    rewrite H1.
    pose proof (dispatch_taskunit_frame _ _ _ _ _ _ H1) as (Hn1 & Hl1 & _ & _).
    apply IH; [congruence|congruence|assumption].
Qed.

Lemma on_job_completes
    (p : Process) (msg : Message) (j : Job) (cls : Classes)
    (processor : option Processor) (units : list TaskUnit) :
  Job_deserialize (msg_payload msg) (classes p) = (Ok j, cls) ->
  job_processor cls j = Ok processor ->
  splitter_split cls (splitter j) (input_data j) processor = (units, None) ->
  Forall (fun u => exists i, unit_id u i) units ->
  slave_nodes (master p) <> [] ->
  registry_matches_scheduler p ->
  exists p', on_job p msg = Continue p'.
Proof.
  intros Hde Hproc Hsplit Hall Hne Hinv. unfold on_job.
  rewrite Hde, Hproc, Hsplit.
  destruct (dispatch_taskunits_total units (store_job (master p) j) j)
    as (self' & j' & ->); [exact Hne|exact Hinv|exact Hall|].
  eauto.
Qed.

(** Equal units are counted once: when two of the K units agree in data and
    processor, [pending_taskunits] ends below K although K units went out. *)
Lemma on_job_equal_units_undercount
    (p p' : Process) (msg : Message) (j : Job) (cls : Classes)
    (processor : option Processor) (units : list TaskUnit)
    (a b : nat) (u u' : TaskUnit) :
  Job_deserialize (msg_payload msg) (classes p) = (Ok j, cls) ->
  taskunits j = ∅ ->
  job_processor cls j = Ok processor ->
  splitter_split cls (splitter j) (input_data j) processor = (units, None) ->
  on_job p msg = Continue p' ->
  units !! a = Some u -> units !! b = Some u' -> a <> b ->
  tu_data u = tu_data u' -> tu_processor u = tu_processor u' ->
  exists (j' : Job) (pending : Z),
    jobs (master p') !! job_id j = Some j'
    /\ pending_taskunits j' = Some pending
    /\ pending < Z.of_nat (length units).
Proof.
  intros Hde Hempty Hproc Hsplit Hrun Ha Hb Hab Hd Hp.
  unfold on_job in Hrun. rewrite Hde, Hproc, Hsplit in Hrun.
  destruct (dispatch_taskunits _ _ _) as [[self' j1] [e|]] eqn:Hdis;
    [discriminate|].
  injection Hrun as <-.
  pose proof (dispatch_taskunits_frame _ _ _ _ _ _ Hdis) as (_ & _ & _ & Hid).
  apply dispatch_taskunits_completes in Hdis as (ids & Hids & Hdom & _ & _).
  rewrite Hempty, dom_empty_L, (right_id_L ∅ (∪)) in Hdom.
  assert (Hsize : size (taskunits j1) = length (remove_dups ids)).
  { rewrite <- size_dom, Hdom. apply size_list_to_set_remove_dups. }
  pose proof (equal_units_repeat_an_id _ _ _ _ _ _ Hids Ha Hb Hab Hd Hp) as Hdup.
  apply length_remove_dups_lt in Hdup.
  pose proof (Forall2_length _ _ _ Hids) as Hlen.
  eexists _, _. cbn. rewrite Hid, lookup_insert_eq.
  split; [reflexivity|]. split; [reflexivity|]. lia.
Qed.
End DispatchCompletes.

Lemma enqueue_job_always_raises_witness :
  enqueue_job (fun _ => Ok module_with_processor_only) (lit "master")
    initial_classes (lit "wordcount")
  = SubmitRaised TypeError (submitter_messenger (lit "master")) initial_classes.
Proof.
  destruct (enqueue_job_always_raises (fun _ => Ok module_with_processor_only)
              (lit "master") initial_classes (lit "wordcount"))
    as (Hraise & _ & Hkind).
  rewrite Hraise.
  rewrite (Hkind module_with_processor_only eq_refl
             (ex_intro _ _ eq_refl) (ex_intro _ _ eq_refl)).
  reflexivity.
Defined.

(* ===================================================================== *)
(** * More on job identity                                                *)
(* ===================================================================== *)

Lemma land_255_range (w : Z) : 0 <= Z.land w 0xFF < 256.
Proof.
  change 0xFF with (Z.ones 8). rewrite Z.land_ones by lia.
  apply Z.mod_pos_bound. lia.
Qed.

Lemma le_bytes32_octets (w : Z) : Forall (fun b => 0 <= b < 256) (le_bytes32 w).
Proof. unfold le_bytes32. repeat constructor; apply land_255_range. Qed.

Lemma md5_digest_octets (msg : bytes) :
  length (md5_digest msg) = 16%nat
  /\ Forall (fun b => 0 <= b < 256) (md5_digest msg).
Proof.
  unfold md5_digest. split.
  - rewrite !length_app. reflexivity.
  - rewrite !Forall_app. repeat split; apply le_bytes32_octets.
Qed.

Lemma hex_digit_lower_hex (n : Z) : 0 <= n < 16 -> is_lower_hex (hex_digit n).
Proof.
  intros Hn. unfold hex_digit, is_lower_hex.
  destruct (Z.ltb_spec n 10); lia.
Qed.

Lemma hex_of_bytes_shape (b : bytes) :
  Forall (fun x => 0 <= x < 256) b ->
  length (hex_of_bytes b) = (2 * length b)%nat
  /\ Forall is_lower_hex (hex_of_bytes b).
Proof.
  unfold hex_of_bytes. induction 1 as [|x b Hx _ [IHl IHf]]; cbn [flat_map].
  - split; [reflexivity|constructor].
  - split.
    + rewrite length_app, IHl. cbn [length]. lia.
    + apply Forall_app. split; [|exact IHf].
      constructor; [|constructor; [|constructor]]; apply hex_digit_lower_hex.
      * rewrite Z.shiftr_div_pow2 by lia. change (2 ^ 4) with 16.
        split; [apply Z.div_pos; lia|apply Z.div_lt_upper_bound; lia].
      * change 0xF with (Z.ones 4). rewrite Z.land_ones by lia.
        apply Z.mod_pos_bound. lia.
Qed.

Lemma compute_job_id_is_a_digest (a b c d : pyval) (h : str) :
  compute_job_id a b c d = Ok h ->
  exists hashable, h = hex_of_bytes (md5_digest hashable).
Proof.
  unfold compute_job_id.
  destruct (if isinstance_bytes a then as_bytes a else py_bytes_utf8 a) as [ba|];
    [|discriminate].
  destruct (if isinstance_bytes b then as_bytes b else py_bytes_utf8 b) as [bb|];
    [|discriminate].
  destruct (if isinstance_bytes c then as_bytes c else py_bytes_utf8 c) as [bc|];
    [|discriminate].
  destruct (if isinstance_bytes d then as_bytes d else py_bytes_utf8 d) as [bd|];
    [|discriminate].
  intros [= <-]. eexists. reflexivity.
Qed.

(** X1.  Whenever [compute_job_id] returns, the id is 32 characters long and
    each of them is one of [0-9a-f]. *)
Theorem compute_job_id_32_hex_digits (a b c d : pyval) (h : str) :
  compute_job_id a b c d = Ok h ->
  length h = 32%nat /\ Forall is_lower_hex h.
Proof.
  intros Hid. apply compute_job_id_is_a_digest in Hid as [hashable ->].
  destruct (md5_digest_octets hashable) as [Hlen Hoct].
  destruct (hex_of_bytes_shape _ Hoct) as [Hl Hf].
  rewrite Hlen in Hl. split; assumption.
Qed.

Lemma compute_job_id_32_hex_digits_witness :
  exists h,
    compute_job_id (VStr (lit "a b")) (VBytes [0; 255]) (VStr []) (VStr (lit "x")) = Ok h
    /\ length h = 32%nat /\ Forall is_lower_hex h.
Proof.
  eexists. split; [vm_compute; reflexivity|].
  apply (compute_job_id_32_hex_digits
           (VStr (lit "a b")) (VBytes [0; 255]) (VStr []) (VStr (lit "x"))).
  vm_compute. reflexivity.
Defined.

Lemma utf8_encode_app (s t : str) :
  utf8_encode (s ++ t)
  = (bs ← utf8_encode s; bt ← utf8_encode t; Ok (bs ++ bt)).
Proof.
  induction s as [|c s IH]; cbn [app utf8_encode].
  - cbn. destruct (utf8_encode t); reflexivity.
  - rewrite IH. destruct (utf8_encode_char c) as [bc|]; cbn; [|reflexivity].
    destruct (utf8_encode s) as [bs|]; cbn; [|reflexivity].
    destruct (utf8_encode t) as [bt|]; cbn; [|reflexivity].
    rewrite app_assoc. reflexivity.
Qed.

(** X2.  The id does not record where one input ends and the next begins:
    text moved from the end of [input_data] to the front of
    [processor_code] gives the same result (the same id, or the same
    exception). *)
Theorem compute_job_id_ignores_field_boundary (s t u : str) (c d : pyval) :
  compute_job_id (VStr (s ++ t)) (VStr u) c d
  = compute_job_id (VStr s) (VStr (t ++ u)) c d.
Proof.
  unfold compute_job_id. cbn [isinstance_bytes py_bytes_utf8].
  rewrite !utf8_encode_app.
  destruct (utf8_encode s) as [bs|]; cbn [mbind result_bind rbind]; [|reflexivity].
  destruct (utf8_encode t) as [bt|]; cbn [mbind result_bind rbind]; [|reflexivity].
  destruct (utf8_encode u) as [bu|]; cbn [mbind result_bind rbind]; [|reflexivity].
  destruct (if isinstance_bytes c then as_bytes c else py_bytes_utf8 c) as [bc|];
    cbn [mbind result_bind rbind]; [|reflexivity].
  destruct (if isinstance_bytes d then as_bytes d else py_bytes_utf8 d) as [bd|];
    cbn [mbind result_bind rbind]; [|reflexivity].
  rewrite <- !app_assoc. reflexivity.
Qed.

(** X3.  Text and the bytes of its UTF-8 encoding are interchangeable in
    every position: the id of four inputs is the id of their four byte
    representations passed as [bytes]. *)
Theorem compute_job_id_text_or_its_bytes (a b c d : pyval) (ba bb bc bd : bytes) :
  byte_representation a = Some ba -> byte_representation b = Some bb ->
  byte_representation c = Some bc -> byte_representation d = Some bd ->
  compute_job_id a b c d
  = compute_job_id (VBytes ba) (VBytes bb) (VBytes bc) (VBytes bd).
Proof.
  intros Ha Hb Hc Hd. unfold compute_job_id.
  assert (Hconv : forall x bx, byte_representation x = Some bx ->
            (if isinstance_bytes x then as_bytes x else py_bytes_utf8 x) = Ok bx).
  { intros x bx Hx. destruct x; cbn in *; try discriminate.
    - destruct (utf8_encode s); cbn in Hx; congruence.
    - congruence. }
  rewrite (Hconv a ba Ha), (Hconv b bb Hb), (Hconv c bc Hc), (Hconv d bd Hd).
  reflexivity.
Qed.

Lemma compute_job_id_text_or_its_bytes_witness :
  compute_job_id (VStr [233]) (VStr (lit "p")) (VBytes [7]) (VStr [])
  = compute_job_id (VBytes [195; 169]) (VBytes (lit "p")) (VBytes [7]) (VBytes []).
Proof.
  apply compute_job_id_text_or_its_bytes; reflexivity.
Defined.

(* ===================================================================== *)
(** * More on the default Splitter and Combiner                           *)
(* ===================================================================== *)

Lemma str_split_without_separator (sep : Z) (s : str) :
  sep ∉ s -> str_split sep s = [s].
Proof.
  induction s as [|c s IH]; intros Hnin; cbn [str_split]; [reflexivity|].
  apply not_elem_of_cons in Hnin as [Hne Hnin].
  destruct (Z.eqb_spec c sep) as [->|_]; [contradiction|].
  rewrite (IH Hnin). reflexivity.
Qed.

Lemma str_split_app (sep : Z) (s t : str) :
  str_split sep (s ++ sep :: t) = str_split sep s ++ str_split sep t.
Proof.
  induction s as [|c s IH]; cbn [app str_split].
  - rewrite Z.eqb_refl. reflexivity.
  - rewrite IH. destruct (c =? sep); [reflexivity|].
    pose proof (str_split_nonempty sep s) as Hs.
    destruct (str_split sep s) as [|l ls]; [contradiction|]. reflexivity.
Qed.

(** X4.  An input without a newline, the empty string included, is one
    unit: the split yields exactly one unit and its data is the whole
    input. *)
Theorem Splitter_split_single_line (s : str) (processor : option Processor) :
  newline ∉ s ->
  Splitter_split (VStr s) processor = ([TaskUnit_new (VStr s) processor], None).
Proof.
  intros Hnin. unfold Splitter_split.
  rewrite (str_split_without_separator _ _ Hnin). reflexivity.
Qed.

Lemma Splitter_split_single_line_witness :
  Splitter_split (VStr []) None = ([TaskUnit_new (VStr []) None], None).
Proof.
  apply Splitter_split_single_line. apply not_elem_of_nil.
Defined.

(** X5.  Splitting composes at a newline: the units of [s + "\n" + t] are
    the units of [s] followed by the units of [t]. *)
Theorem Splitter_split_at_newline (s t : str) (processor : option Processor) :
  Splitter_split (VStr (s ++ newline :: t)) processor
  = (fst (Splitter_split (VStr s) processor)
       ++ fst (Splitter_split (VStr t) processor),
     None).
Proof.
  unfold Splitter_split. cbn [fst]. rewrite str_split_app, map_app. reflexivity.
Qed.


Lemma py_sum_from_unsummable (units : list TaskUnit) : forall acc,
  Exists unsummable_result units ->
  py_sum_from acc (map tu_result units) = Raise TypeError.
Proof.
  induction units as [|t units IH]; intros acc Hex; [inversion Hex|].
  cbn [map py_sum_from].
  destruct (tu_result t) as [|n|s|b] eqn:Hr; try reflexivity.
  apply IH. inversion Hex as [? ? Hbad|]; subst; [|assumption].
  destruct Hbad as [Hbad|[[s Hbad]|[b Hbad]]]; congruence.
Qed.



(** X7.  [set_split_method] and [set_combine_method] rebind the method on
    the class: the default splitter and combiner of a job constructed
    before the call use the new method from then on, while an instance that
    carries its own [split] or [combine] attribute keeps it. *)
Theorem set_method_rebinds_for_every_instance
    (cls : Classes) (id : option str) (d : pyval) (p : option Processor)
    (split' : split_method) (combine' : combine_method)
    (s : Splitter) (c : Combiner) (own_split : split_method)
    (own_combine : combine_method) :
  splitter_split_attr s = Some own_split ->
  combiner_combine_attr c = Some own_combine ->
  let '(j, cls1) := Job_init cls id d p None None in
  let cls2 := set_combine_method (set_split_method cls1 split') combine' in
  splitter_split cls1 (splitter j) = Splitter_split_attr cls
  /\ splitter_split cls2 (splitter j) = split'
  /\ combiner_combine cls1 (combiner j) = Combiner_combine_attr cls
  /\ combiner_combine cls2 (combiner j) = combine'
  /\ splitter_split cls2 s = own_split
  /\ combiner_combine cls2 c = own_combine
  /\ Job_processor cls2 = Job_processor cls1.
Proof.
  intros Hs Hc. cbn. unfold splitter_split, combiner_combine.
  rewrite Hs, Hc. cbn. repeat split; reflexivity.
Qed.

Lemma set_method_rebinds_for_every_instance_witness :
  let own : split_method := fun _ _ => ([], None) in
  let own_c : combine_method := fun _ fs => (Ok tt, fs) in
  let '(j, cls1) := Job_init initial_classes None VNone None None None in
  let cls2 := set_combine_method (set_split_method cls1 own) own_c in
  splitter_split cls2 (splitter j) = own
  /\ combiner_combine cls2 (combiner j) = own_c.
Proof.
  intros own own_c.
  pose proof (set_method_rebinds_for_every_instance initial_classes None VNone
                None own own_c
                {| splitter_noserialize := []; splitter_split_attr := Some own |}
                {| combiner_noserialize := []; combiner_taskunits := [];
                   combiner_combine_attr := Some own_c |}
                own own_c eq_refl eq_refl) as Hall.
  cbn in Hall. destruct Hall as (_ & Hs & _ & Hc & _).
  split; [exact Hs|exact Hc].
Defined.

(* ===================================================================== *)
(** * More on the master loop                                             *)
(* ===================================================================== *)

Section MasterLoopMore.
Context `{Collaborators}.

(** X8.  A [STATUS] message registers nothing unless its payload reads
    [STATE_UP]: with any other status the pass leaves the process as it
    was, and with a payload that is not a number the conversion's exception
    leaves the loop, the process again as it was. *)
Theorem status_other_than_up_changes_nothing
    d (p : Process) (a : address) (msg : Message) :
  msg_type msg = MSG_STATUS ->
  (forall status,
     int_of_utf8 (msg_payload msg) = Ok status -> status <> STATE_UP ->
     worker_iteration d p (a, Some msg) = Continue p)
  /\ (forall e,
        int_of_utf8 (msg_payload msg) = Raise e ->
        worker_iteration d p (a, Some msg) = Uncaught e p).
Proof.
  intros Hty. cbn. rewrite Hty. unfold on_status. split.
  - intros status -> Hne. destruct (Z.eqb_spec status STATE_UP); [contradiction|].
    reflexivity.
  - intros e ->. reflexivity.
Qed.

Lemma dispatch_taskunit_messenger self j tu self' j' ending :
  dispatch_taskunit self j tu = (self', j', ending) ->
  destinations (messenger self') = destinations (messenger self).
Proof.
  unfold dispatch_taskunit.
  destruct (inspect_getsource _) as [source|e]; [|intros [= <- <- <-]; auto].
  destruct (compute_taskunit_id _ _) as [i|e]; [|intros [= <- <- <-]; auto].
  destruct (schedule_job _ _) as [[next sched]|e]; [|intros [= <- <- <-]; auto].
  cbn. destruct (slave_nodes self !! next); intros [= <- <- <-]; reflexivity.
Qed.

Lemma dispatch_taskunits_messenger units : forall self j self' j' ending,
  dispatch_taskunits self j units = (self', j', ending) ->
  destinations (messenger self') = destinations (messenger self).
Proof.
  induction units as [|tu units IH]; intros self j self' j' ending; cbn.
  - intros [= <- <- <-]; reflexivity.
  - destruct (dispatch_taskunit self j tu) as [[self1 j1] [e|]] eqn:H1.
    + intros [= <- <- <-]. eapply dispatch_taskunit_messenger; eauto.
    + intros H2. apply dispatch_taskunit_messenger in H1. apply IH in H2.
      congruence.
Qed.

Lemma worker_iteration_destinations d p r :
  destinations_follow_registrations p ->
  destinations_follow_registrations (final_process (worker_iteration d p r)).
Proof.
  unfold destinations_follow_registrations. intros Hinv.
  destruct r as [a [msg|]]; cbn; [|exact Hinv].
  destruct (msg_type msg); [| | |exact Hinv].
  - unfold on_status. destruct (int_of_utf8 _) as [status|e]; [|exact Hinv].
    destruct (status =? STATE_UP); [|exact Hinv].
    cbn. unfold destinations_of_registrations in *. rewrite last_snoc.
    rewrite Hinv. destruct (last (slave_nodes (master p))) as [worker|].
    + apply insert_singleton_eq.
    + apply insert_empty.
  - unfold on_job.
    destruct (Job_deserialize _ _) as [[j|e] cls]; [|exact Hinv].
    destruct (job_processor cls j) as [processor|e]; [|exact Hinv].
    destruct (splitter_split _ _ _ _) as [units ending].
    destruct (dispatch_taskunits _ _ _) as [[self' j'] stopped] eqn:Hd.
    pose proof (dispatch_taskunits_frame _ _ _ _ _ _ Hd) as (Hn & _ & _ & _).
    apply dispatch_taskunits_messenger in Hd. cbn in Hn, Hd.
    destruct stopped as [e|]; [|destruct ending as [e|]]; cbn; congruence.
  - unfold on_taskunit_result. repeat case_match; cbn; exact Hinv.
Qed.

(** X9.  Every registration is filed under the one destination name
    [slave1]: after any sequence of received messages the master's
    destination table is empty when no worker has registered, and otherwise
    holds just that name, pointing at the worker that registered last. *)
Theorem destinations_hold_last_registration d
    (received : list (address * option Message)) :
  let p := final_process (worker_run d initial_process received) in
  destinations (messenger (master p))
  = match last (slave_nodes (master p)) with
    | None => ∅
    | Some worker => {[ lit "slave1" := node_address worker ]}
    end.
Proof.
  cbn zeta. change (destinations_follow_registrations
                      (final_process (worker_run d initial_process received))).
  assert (Hinit : destinations_follow_registrations initial_process)
    by reflexivity.
  revert Hinit. generalize initial_process.
  induction received as [|r rest IH]; intros p Hinv; cbn; [exact Hinv|].
  pose proof (worker_iteration_destinations d p r Hinv) as Hstep.
  destruct (worker_iteration d p r) as [p'|e p']; cbn in *.
  - apply IH, Hstep.
  - exact Hstep.
Qed.

Lemma filed_from_refl (j : Job) : filed_from j j.
Proof. unfold filed_from. repeat split; auto. Qed.

Lemma dispatch_taskunit_filed (j0 : Job) self j tu self' j' ending :
  dispatch_taskunit self j tu = (self', j', ending) ->
  filed_from j0 j -> filed_from j0 j'.
Proof.
  unfold dispatch_taskunit.
  destruct (inspect_getsource _) as [source|e] eqn:Hsrc;
    [|intros [= <- <- <-]; auto].
  destruct (compute_taskunit_id _ _) as [i|e] eqn:Hid;
    [|intros [= <- <- <-]; auto].
  assert (Hins : filed_from j0 j ->
            filed_from j0
              (set_job_taskunits j
                 (<[i := stamped tu i (job_id j)]> (taskunits j)))).
  { intros (Hns & Hjid & Hin & Hsp & Hco & Hpe & Hunits & Hkept).
    unfold filed_from. cbn.
    repeat split; try assumption.
    - intros i' t Hl.
      apply lookup_insert_Some in Hl as [[<- <-]|[_ Hl]]; [|apply Hunits, Hl].
      right. exists tu. rewrite Hjid. split; [|reflexivity].
      exists source. split; assumption.
    - intros i' Hsome. destruct (decide (i = i')) as [<-|Hne].
      + rewrite lookup_insert_eq. eauto.
      + rewrite lookup_insert_ne by assumption. apply Hkept, Hsome. }
  destruct (schedule_job _ _) as [[next sched]|e].
  - cbn. destruct (slave_nodes self !! next); intros [= <- <- <-]; exact Hins.
  - intros [= <- <- <-]. exact Hins.
Qed.

Lemma dispatch_taskunits_filed (j0 : Job) units : forall self j self' j' ending,
  dispatch_taskunits self j units = (self', j', ending) ->
  filed_from j0 j -> filed_from j0 j'.
Proof.
  induction units as [|tu units IH]; intros self j self' j' ending; cbn.
  - intros [= <- <- <-]; auto.
  - destruct (dispatch_taskunit self j tu) as [[self1 j1] [e|]] eqn:H1.
    + intros [= <- <- <-]. eapply dispatch_taskunit_filed; eauto.
    + intros H2 Hf. eapply IH; [exact H2|].
      eapply dispatch_taskunit_filed; eauto.
Qed.

(** X10.  However the [JOB] branch ends, it touches nothing but the entry
    of the job it received and the outbound queue: the worker list, the
    number of scheduler slots, the written files and every other job of the
    table are as before.  Under the received job's id the table holds that
    job: its id, input data, splitter and combiner are the received ones,
    its units are those it came with and units stamped by the dispatch, and
    its [pending_taskunits] is either untouched or the size of its unit
    map. *)
Theorem on_job_touches_only_its_job
    (p : Process) (msg : Message) (j : Job) (cls : Classes) :
  Job_deserialize (msg_payload msg) (classes p) = (Ok j, cls) ->
  let p' := final_process (on_job p msg) in
  slave_nodes (master p') = slave_nodes (master p)
  /\ length (loads (scheduler (master p'))) = length (loads (scheduler (master p)))
  /\ files p' = files p
  /\ (forall key, key <> job_id j ->
        jobs (master p') !! key = jobs (master p) !! key)
  /\ (exists j', jobs (master p') !! job_id j = Some j' /\ stored_for j j').
Proof.
  intros Hde. unfold on_job. rewrite Hde.
  destruct (job_processor cls j) as [processor|e].
  2: { cbn. repeat split.
       - intros key Hne. apply lookup_insert_ne. congruence.
       - exists j. rewrite lookup_insert_eq. split; [reflexivity|].
         exists j. split; [apply filed_from_refl|left; reflexivity]. }
  destruct (splitter_split _ _ _ _) as [units ending].
  destruct (dispatch_taskunits _ _ _) as [[self' j'] stopped] eqn:Hd.
  pose proof (dispatch_taskunits_filed j _ _ _ _ _ _ Hd (filed_from_refl j))
    as Hfiled.
  apply dispatch_taskunits_frame in Hd as (Hn & Hl & Hj & Hid).
  cbn in Hn, Hl, Hj.
  assert (Hgoal : forall j2, job_id j2 = job_id j -> stored_for j j2 ->
            slave_nodes (store_job self' j2) = slave_nodes (master p)
            /\ length (loads (scheduler (store_job self' j2)))
               = length (loads (scheduler (master p)))
            /\ (forall key, key <> job_id j ->
                  jobs (store_job self' j2) !! key = jobs (master p) !! key)
            /\ (exists j3, jobs (store_job self' j2) !! job_id j = Some j3
                           /\ stored_for j j3)).
  { intros j2 Hj2 Hstored. cbn. rewrite Hj2, Hj.
    repeat split; [assumption|assumption| |].
    - intros key Hne. rewrite !lookup_insert_ne by congruence. reflexivity.
    - exists j2. rewrite lookup_insert_eq. split; [reflexivity|exact Hstored]. }
  assert (Hplain : stored_for j j') by (exists j'; split; [exact Hfiled|left; reflexivity]).
  assert (Hcounted : stored_for j (set_job_pending j' (Z.of_nat (size (taskunits j')))))
    by (exists j'; split; [exact Hfiled|right; reflexivity]).
  destruct stopped as [e|]; [|destruct ending as [e|]];
    cbn [final_process master files].
  1, 2: destruct (Hgoal j' Hid Hplain) as (? & ? & ? & ?);
    repeat split; assumption.
  destruct (Hgoal (set_job_pending j' (Z.of_nat (size (taskunits j')))) Hid Hcounted)
    as (? & ? & ? & ?).
  repeat split; assumption.
Qed.
End MasterLoopMore.

Section MasterDispatchMore.
Context `{Collaborators}.

Lemma dispatch_taskunit_ships self j tu self' j' :
  dispatch_taskunit self j tu = (self', j', None) ->
  exists item,
    outbound_queue (messenger self') = outbound_queue (messenger self) ++ [item]
    /\ shipped_to_worker (slave_nodes self) (job_id j) tu item.
Proof.
  unfold dispatch_taskunit, shipped_to_worker, unit_id.
  destruct (inspect_getsource _) as [source|e] eqn:Hsrc; [|discriminate].
  destruct (compute_taskunit_id _ _) as [i|e] eqn:Hid; [|discriminate].
  destruct (schedule_job _ _) as [[next sched]|e]; [|discriminate].
  cbn. destruct (slave_nodes self !! next) as [worker|] eqn:Hw; [|discriminate].
  intros [= <- <-]. eexists. split; [reflexivity|].
  exists i, worker. split; [eauto|]. split; [|reflexivity].
  apply list_elem_of_lookup. eauto.
Qed.

Lemma dispatch_taskunits_ships units : forall self j self' j',
  dispatch_taskunits self j units = (self', j', None) ->
  exists items,
    outbound_queue (messenger self') = outbound_queue (messenger self) ++ items
    /\ Forall2 (shipped_to_worker (slave_nodes self) (job_id j)) units items.
Proof.
  induction units as [|tu units IH]; intros self j self' j'; cbn.
  - intros [= <- <-]. exists []. rewrite app_nil_r. split; [reflexivity|constructor].
  - destruct (dispatch_taskunit self j tu) as [[self1 j1] [e|]] eqn:H1;
      [discriminate|].
    intros H2.
    pose proof (dispatch_taskunit_frame _ _ _ _ _ _ H1) as (Hn & _ & _ & Hid).
    apply dispatch_taskunit_ships in H1 as (item & Hq1 & Hitem).
    apply IH in H2 as (items & Hq2 & Hitems).
    exists (item :: items). split.
    + rewrite Hq2, Hq1, <- app_assoc. reflexivity.
    + constructor; [exact Hitem|]. rewrite <- Hn, <- Hid. exact Hitems.
Qed.

(** X11.  A [JOB] branch that runs to its end appends to the outbound queue
    one item per unit of the split, in the order of the split, and nothing
    else: each is that unit with its computed id and the job's id filled in,
    addressed to a worker of the worker list, with the five attribute
    names [id], [job_id], [data], [processor._code], [retries]. *)
Theorem on_job_ships_each_unit_to_a_worker
    (p p' : Process) (msg : Message) (j : Job) (cls : Classes)
    (processor : option Processor) (units : list TaskUnit)
    (ending : option exn) :
  Job_deserialize (msg_payload msg) (classes p) = (Ok j, cls) ->
  job_processor cls j = Ok processor ->
  splitter_split cls (splitter j) (input_data j) processor = (units, ending) ->
  on_job p msg = Continue p' ->
  exists items,
    outbound_queue (messenger (master p'))
    = outbound_queue (messenger (master p)) ++ items
    /\ Forall2 (shipped_to_worker (slave_nodes (master p)) (job_id j)) units items.
Proof.
  intros Hde Hproc Hsplit. unfold on_job. rewrite Hde, Hproc, Hsplit.
  destruct (dispatch_taskunits _ _ _) as [[self' j1] [e|]] eqn:Hd; [discriminate|].
  destruct ending as [e|]; [discriminate|]. intros [= <-].
  apply dispatch_taskunits_ships in Hd as (items & Hq & Hitems).
  exists items. split; [exact Hq|exact Hitems].
Qed.

Lemma dispatch_taskunit_without_workers self j tu :
  slave_nodes self = [] ->
  exists self' j' e,
    dispatch_taskunit self j tu = (self', j', Some e)
    /\ messenger self' = messenger self
    /\ slave_nodes self' = []
    /\ pending_taskunits j' = pending_taskunits j.
Proof.
  intros Hnone. unfold dispatch_taskunit.
  destruct (inspect_getsource _) as [source|e]; [|eauto 10].
  destruct (compute_taskunit_id _ _) as [i|e]; [|eauto 10].
  destruct (schedule_job _ _) as [[next sched]|e]; [|eauto 10].
  cbn. rewrite Hnone. cbn. eauto 10.
Qed.

(** X12.  With no worker registered, a job that splits into at least one
    unit cannot be dispatched: an exception leaves the loop, nothing has
    been put on the outbound queue, and the job stays in the table without
    a [pending_taskunits] count of the master's. *)
Theorem on_job_without_workers_stops_loop
    (p : Process) (msg : Message) (j : Job) (cls : Classes)
    (processor : option Processor) (tu : TaskUnit) (units : list TaskUnit)
    (ending : option exn) :
  slave_nodes (master p) = [] ->
  Job_deserialize (msg_payload msg) (classes p) = (Ok j, cls) ->
  job_processor cls j = Ok processor ->
  splitter_split cls (splitter j) (input_data j) processor = (tu :: units, ending) ->
  exists e p' j',
    on_job p msg = Uncaught e p'
    /\ outbound_queue (messenger (master p')) = outbound_queue (messenger (master p))
    /\ slave_nodes (master p') = []
    /\ jobs (master p') !! job_id j = Some j'
    /\ pending_taskunits j' = pending_taskunits j.
Proof.
  intros Hnone Hde Hproc Hsplit. unfold on_job. rewrite Hde, Hproc, Hsplit.
  cbn [dispatch_taskunits].
  destruct (dispatch_taskunit_without_workers (store_job (master p) j) j tu Hnone)
    as (self' & j' & e & Hd & Hm & Hn & Hpending).
  pose proof (dispatch_taskunit_frame _ _ _ _ _ _ Hd) as (_ & _ & _ & Hid).
  rewrite Hd. exists e. eexists. exists j'. split; [reflexivity|]. cbn.
  rewrite Hm, Hid, lookup_insert_eq. auto.
Qed.

(** X13.  A job whose [input_data] is not text (the constructor's default
    [None], or bytes) and that uses the default splitter stops the loop at
    the split: [AttributeError] for [None] or a number, [TypeError] for
    bytes.  The job is in the table by then, with no unit filed and nothing
    sent. *)
Theorem on_job_input_not_text_stops_loop
    (p : Process) (msg : Message) (j : Job) (cls : Classes)
    (processor : option Processor) :
  Job_deserialize (msg_payload msg) (classes p) = (Ok j, cls) ->
  job_processor cls j = Ok processor ->
  splitter_split_attr (splitter j) = None ->
  Splitter_split_attr cls = Splitter_split ->
  (forall s, input_data j <> VStr s) ->
  on_job p msg
  = Uncaught (match input_data j with
              | VBytes _ => TypeError
              | _ => AttributeError "split"
              end)
      {| master := store_job (master p) j; classes := cls; files := files p |}.
Proof.
  intros Hde Hproc Hown Hcls Hnotstr. unfold on_job. rewrite Hde, Hproc.
  unfold splitter_split. rewrite Hown, Hcls.
  assert (Hstore : store_job (store_job (master p) j) j = store_job (master p) j).
  { unfold store_job. cbn. rewrite insert_insert_eq. reflexivity. }
  destruct (input_data j) as [|n|s|b]; cbn; rewrite ?Hstore; try reflexivity.
  destruct (Hnotstr s eq_refl).
Qed.
End MasterDispatchMore.

Section MasterBookkeeping.
Context `{Collaborators}.

Lemma dispatch_taskunit_units_keyed self j tu self' j' ending :
  dispatch_taskunit self j tu = (self', j', ending) ->
  units_keyed_by_id j -> units_keyed_by_id j'.
Proof.
  unfold dispatch_taskunit.
  destruct (inspect_getsource _) as [source|e]; [|intros [= <- <- <-]; auto].
  destruct (compute_taskunit_id _ _) as [i|e]; [|intros [= <- <- <-]; auto].
  assert (Hins : units_keyed_by_id j ->
            units_keyed_by_id
              (set_job_taskunits j
                 (<[i := stamped tu i (job_id j)]> (taskunits j)))).
  { intros Hk i' t. cbn. intros Hl.
    apply lookup_insert_Some in Hl as [[<- <-]|[_ Hl]]; [split; reflexivity|].
    apply Hk, Hl. }
  destruct (schedule_job _ _) as [[next sched]|e].
  - cbn. destruct (slave_nodes self !! next); intros [= <- <- <-]; exact Hins.
  - intros [= <- <- <-]. exact Hins.
Qed.

Lemma dispatch_taskunits_units_keyed units : forall self j self' j' ending,
  dispatch_taskunits self j units = (self', j', ending) ->
  units_keyed_by_id j -> units_keyed_by_id j'.
Proof.
  induction units as [|tu units IH]; intros self j self' j' ending; cbn.
  - intros [= <- <- <-]; auto.
  - destruct (dispatch_taskunit self j tu) as [[self1 j1] [e|]] eqn:H1.
    + intros [= <- <- <-]. eapply dispatch_taskunit_units_keyed; eauto.
    + intros H2 Hk. eapply IH; [exact H2|].
      eapply dispatch_taskunit_units_keyed; eauto.
Qed.

Lemma jobs_keyed_by_id_store (self : Master) (p : Process) (j : Job) :
  (forall key j0, jobs self !! key = Some j0 -> job_id j0 = key) ->
  forall key j0, jobs (store_job self j) !! key = Some j0 -> job_id j0 = key.
Proof.
  intros Hk key j0. cbn. intros Hl.
  apply lookup_insert_Some in Hl as [[<- <-]|[_ Hl]]; [reflexivity|].
  apply Hk, Hl.
Qed.

Lemma worker_iteration_jobs_keyed d p r :
  jobs_keyed_by_id p ->
  jobs_keyed_by_id (final_process (worker_iteration d p r)).
Proof.
  unfold jobs_keyed_by_id. intros Hinv.
  destruct r as [a [msg|]]; cbn [worker_iteration final_process]; [|exact Hinv].
  destruct (msg_type msg); [| | |exact Hinv].
  - unfold on_status. destruct (int_of_utf8 _) as [status|e]; [|exact Hinv].
    destruct (status =? STATE_UP); exact Hinv.
  - unfold on_job.
    destruct (Job_deserialize _ _) as [[j|e] cls]; [|exact Hinv].
    pose proof (jobs_keyed_by_id_store (master p) p j Hinv) as Hstored.
    destruct (job_processor cls j) as [processor|e]; [|exact Hstored].
    destruct (splitter_split _ _ _ _) as [units ending].
    destruct (dispatch_taskunits _ _ _) as [[self' j'] stopped] eqn:Hd.
    apply dispatch_taskunits_frame in Hd as (_ & _ & Hj & Hid).
    assert (Hself' : forall key j0, jobs self' !! key = Some j0 -> job_id j0 = key)
      by (rewrite Hj; exact Hstored).
    destruct stopped as [e|]; [|destruct ending as [e|]];
      cbn [final_process master];
      apply (jobs_keyed_by_id_store self' p); exact Hself'.
  - unfold on_taskunit_result.
    destruct (load_global _ d) as [tu|e]; [|exact Hinv].
    destruct (jobs (master p) !! tu_job_id tu) as [j|] eqn:Hj; [|exact Hinv].
    destruct (tu_id tu) as [i|]; [|exact Hinv].
    destruct (taskunits j !! i) as [t|]; [|exact Hinv].
    pose proof (Hinv _ _ Hj) as Hid.
    assert (Hupd : forall j2, job_id j2 = job_id j ->
              forall key j0,
                jobs (update_job (master p) (tu_job_id tu) j2) !! key = Some j0 ->
                job_id j0 = key).
    { intros j2 Hj2 key j0. cbn. intros Hl.
      apply lookup_insert_Some in Hl as [[<- <-]|[_ Hl]]; [congruence|].
      apply Hinv, Hl. }
    cbn [set_job_taskunits pending_taskunits].
    destruct (pending_taskunits j) as [pending|]; [|apply Hupd; reflexivity].
    destruct (pending - 1 =? 0); [|apply Hupd; reflexivity].
    destruct (combiner_combine _ _ _ _) as [[[]|e] fs];
      cbn [final_process master]; apply Hupd; reflexivity.
Qed.

(** X14.  The job table is keyed by the jobs' own ids: after any sequence of
    received messages, whatever way the loop ends, the job found under a
    key has that key as its [id]. *)
Theorem job_table_keyed_by_job_id d (received : list (address * option Message)) :
  jobs_keyed_by_id (final_process (worker_run d initial_process received)).
Proof.
  assert (Hinit : jobs_keyed_by_id initial_process).
  { intros key j Hl. cbn in Hl. rewrite lookup_empty in Hl. discriminate. }
  revert Hinit. generalize initial_process.
  induction received as [|r rest IH]; intros p Hinv; cbn; [exact Hinv|].
  pose proof (worker_iteration_jobs_keyed d p r Hinv) as Hstep.
  destruct (worker_iteration d p r) as [p'|e p']; cbn in *.
  - apply IH, Hstep.
  - exact Hstep.
Qed.

Lemma all_units_keyed_store (self : Master) (j : Job) :
  (forall key j0, jobs self !! key = Some j0 -> units_keyed_by_id j0) ->
  units_keyed_by_id j ->
  forall key j0, jobs (store_job self j) !! key = Some j0 -> units_keyed_by_id j0.
Proof.
  intros Hk Hj key j0. cbn. intros Hl.
  apply lookup_insert_Some in Hl as [[<- <-]|[_ Hl]]; [exact Hj|].
  eapply Hk, Hl.
Qed.

Lemma worker_iteration_units_keyed d p r :
  deserialized_without_units ->
  all_units_keyed_by_id p ->
  all_units_keyed_by_id (final_process (worker_iteration d p r)).
Proof.
  unfold all_units_keyed_by_id. intros Hfresh Hinv.
  destruct r as [a [msg|]]; cbn [worker_iteration final_process]; [|exact Hinv].
  destruct (msg_type msg); [| | |exact Hinv].
  - unfold on_status. destruct (int_of_utf8 _) as [status|e]; [|exact Hinv].
    destruct (status =? STATE_UP); exact Hinv.
  - unfold on_job.
    destruct (Job_deserialize _ _) as [[j|e] cls] eqn:Hde; [|exact Hinv].
    assert (Hj0 : units_keyed_by_id j).
    { intros i t. rewrite (Hfresh _ _ _ _ Hde), lookup_empty. discriminate. }
    pose proof (all_units_keyed_store (master p) j Hinv Hj0) as Hstored.
    destruct (job_processor cls j) as [processor|e]; [|exact Hstored].
    destruct (splitter_split _ _ _ _) as [units ending].
    destruct (dispatch_taskunits _ _ _) as [[self' j'] stopped] eqn:Hd.
    pose proof (dispatch_taskunits_units_keyed _ _ _ _ _ _ Hd Hj0) as Hj'.
    apply dispatch_taskunits_frame in Hd as (_ & _ & Hj & _).
    assert (Hself' : forall key j0,
              jobs self' !! key = Some j0 -> units_keyed_by_id j0)
      by (rewrite Hj; exact Hstored).
    destruct stopped as [e|]; [|destruct ending as [e|]];
      cbn [final_process master];
      apply (all_units_keyed_store self'); assumption.
  - unfold on_taskunit_result.
    destruct (load_global _ d) as [tu|e]; [|exact Hinv].
    destruct (jobs (master p) !! tu_job_id tu) as [j|] eqn:Hj; [|exact Hinv].
    destruct (tu_id tu) as [i|]; [|exact Hinv].
    destruct (taskunits j !! i) as [t|] eqn:Ht; [|exact Hinv].
    pose proof (Hinv _ _ Hj) as Hkeyed. destruct (Hkeyed _ _ Ht) as [Hti Htj].
    assert (Hupd : forall j2,
              job_id j2 = job_id j ->
              taskunits j2
              = <[i := {| tu_id := tu_id t; tu_job_id := tu_job_id t;
                          tu_data := tu_data t; tu_processor := tu_processor t;
                          tu_result := tu_result tu; tu_state := tu_state tu;
                          tu_retries := tu_retries t |}]> (taskunits j) ->
              forall key j0,
                jobs (update_job (master p) (tu_job_id tu) j2) !! key = Some j0 ->
                units_keyed_by_id j0).
    { intros j2 Hid Hunits key j0. cbn. intros Hl.
      apply lookup_insert_Some in Hl as [[_ <-]|[_ Hl]]; [|eapply Hinv, Hl].
      intros i' t'. rewrite Hunits, Hid. intros Hl'.
      apply lookup_insert_Some in Hl' as [[<- <-]|[_ Hl']]; [split; assumption|].
      apply Hkeyed, Hl'. }
    cbn [set_job_taskunits pending_taskunits].
    destruct (pending_taskunits j) as [pending|];
      [|apply Hupd; reflexivity].
    destruct (pending - 1 =? 0); [|apply Hupd; reflexivity].
    destruct (combiner_combine _ _ _ _) as [[[]|e] fs];
      cbn [final_process master]; apply Hupd; reflexivity.
Qed.

(** X15.  When deserialized jobs arrive without units, every unit the
    master holds is filed under its own id and names the job that holds
    it, after any sequence of received messages and whatever way the loop
    ends. *)
Theorem units_filed_under_own_id d (received : list (address * option Message)) :
  deserialized_without_units ->
  all_units_keyed_by_id (final_process (worker_run d initial_process received)).
Proof.
  intros Hfresh.
  assert (Hinit : all_units_keyed_by_id initial_process).
  { intros key j Hl. cbn in Hl. rewrite lookup_empty in Hl. discriminate. }
  revert Hinit. generalize initial_process.
  induction received as [|r rest IH]; intros p Hinv; cbn; [exact Hinv|].
  pose proof (worker_iteration_units_keyed d p r Hfresh Hinv) as Hstep.
  destruct (worker_iteration d p r) as [p'|e p']; cbn in *.
  - apply IH, Hstep.
  - exact Hstep.
Qed.

(** X16.  A poll that brings no message changes nothing: the loop ends the
    same way, in the same process, on the received sequence and on that
    sequence with the empty polls left out. *)
Theorem idle_polls_change_nothing d (p : Process)
    (received : list (address * option Message)) :
  worker_run d p received = worker_run d p (with_message received).
Proof.
  revert p. induction received as [|[a [msg|]] rest IH]; intros p;
    cbn [with_message List.filter snd worker_run]; [reflexivity| |].
  - destruct (worker_iteration d p (a, Some msg)) as [p'|e p'];
      [apply IH|reflexivity].
  - cbn [worker_iteration]. apply IH.
Qed.
End MasterBookkeeping.

(* ===================================================================== *)
(** * The additional statements on examples                               *)
(* ===================================================================== *)

Lemma status_other_than_up_changes_nothing_witness :
  worker_iteration (H := example_collaborators) master_py_deserialized_msg
    registered_process
    (example_worker, Some {| msg_type := MSG_STATUS; msg_payload := lit "0" |})
  = Continue registered_process
  /\ worker_iteration (H := example_collaborators) master_py_deserialized_msg
       registered_process
       (example_worker, Some {| msg_type := MSG_STATUS; msg_payload := lit "up" |})
     = Uncaught ValueError registered_process.
Proof.
  split.
  - apply (proj1 (status_other_than_up_changes_nothing (H := example_collaborators)
                    master_py_deserialized_msg registered_process example_worker
                    {| msg_type := MSG_STATUS; msg_payload := lit "0" |} eq_refl)
             0); [reflexivity|discriminate].
  - apply (proj2 (status_other_than_up_changes_nothing (H := example_collaborators)
                    master_py_deserialized_msg registered_process example_worker
                    {| msg_type := MSG_STATUS; msg_payload := lit "up" |} eq_refl)
             ValueError).
    reflexivity.
Defined.

Lemma on_job_touches_only_its_job_witness :
  let p' := final_process
              (on_job (H := example_collaborators) registered_process
                 (job_message two_different_lines)) in
  slave_nodes (master p') = slave_nodes (master registered_process)
  /\ files p' = files registered_process
  /\ exists j',
       jobs (master p') !! Some two_different_lines = Some j'
       /\ input_data j' = VStr two_different_lines.
Proof.
  intros p'.
  destruct (on_job_touches_only_its_job (H := example_collaborators)
              registered_process (job_message two_different_lines)
              (fst (Job_init initial_classes (Some two_different_lines)
                      (VStr two_different_lines) (Some example_processor) None None))
              (snd (Job_init initial_classes (Some two_different_lines)
                      (VStr two_different_lines) (Some example_processor) None None))
              eq_refl) as (Hn & _ & Hf & _ & j' & Hj & j1 & Hfiled & Hcount).
  split; [exact Hn|]. split; [exact Hf|]. exists j'. split; [exact Hj|].
  destruct Hfiled as (_ & _ & Hin & _).
  destruct Hcount as [->| ->]; exact Hin.
Defined.

Lemma on_job_ships_each_unit_to_a_worker_witness :
  exists items,
    outbound_queue
      (messenger
         (master
            (final_process
               (on_job (H := example_collaborators) registered_process
                  (job_message two_different_lines)))))
    = [] ++ items
    /\ length items = 2%nat.
Proof.
  destruct (on_job_ships_each_unit_to_a_worker (H := example_collaborators)
              registered_process
              (final_process
                 (on_job (H := example_collaborators) registered_process
                    (job_message two_different_lines)))
              (job_message two_different_lines)
              (fst (Job_init initial_classes (Some two_different_lines)
                      (VStr two_different_lines) (Some example_processor) None None))
              (snd (Job_init initial_classes (Some two_different_lines)
                      (VStr two_different_lines) (Some example_processor) None None))
              (Some example_processor)
              (fst (Splitter_split (VStr two_different_lines) (Some example_processor)))
              None)
    as (items & Hq & Hitems).
  - reflexivity.
  - reflexivity.
  - reflexivity.
  - vm_compute. reflexivity.
  - exists items. split; [exact Hq|].
    rewrite <- (Forall2_length _ _ _ Hitems). reflexivity.
Defined.

Lemma on_job_without_workers_stops_loop_witness :
  exists e p',
    on_job (H := example_collaborators) initial_process
      (job_message two_different_lines) = Uncaught e p'
    /\ outbound_queue (messenger (master p')) = []
    /\ is_Some (jobs (master p') !! Some two_different_lines).
Proof.
  destruct (on_job_without_workers_stops_loop (H := example_collaborators)
              initial_process (job_message two_different_lines)
              (fst (Job_init initial_classes (Some two_different_lines)
                      (VStr two_different_lines) (Some example_processor) None None))
              (snd (Job_init initial_classes (Some two_different_lines)
                      (VStr two_different_lines) (Some example_processor) None None))
              (Some example_processor)
              (TaskUnit_new (VStr [97]) (Some example_processor))
              [TaskUnit_new (VStr [98]) (Some example_processor)]
              None eq_refl eq_refl eq_refl eq_refl)
    as (e & p' & j' & Hrun & Hq & _ & Hj & _).
  exists e, p'. split; [exact Hrun|]. split; [exact Hq|]. eauto.
Defined.

Lemma on_job_input_not_text_stops_loop_witness :
  exists p',
    on_job (H := bytes_job_collaborators) registered_process
      (job_message two_different_lines) = Uncaught TypeError p'
    /\ outbound_queue (messenger (master p')) = [].
Proof.
  eexists. split.
  - apply (on_job_input_not_text_stops_loop (H := bytes_job_collaborators)
             registered_process (job_message two_different_lines)
             (fst (Job_init initial_classes (Some two_different_lines)
                     (VBytes two_different_lines) (Some example_processor) None None))
             (snd (Job_init initial_classes (Some two_different_lines)
                     (VBytes two_different_lines) (Some example_processor) None None))
             (Some example_processor)); try reflexivity.
    intros s. discriminate.
  - reflexivity.
Defined.

Lemma units_filed_under_own_id_witness :
  all_units_keyed_by_id
    (final_process
       (worker_run (H := example_collaborators) master_py_deserialized_msg
          initial_process
          [(example_worker, Some status_up_message);
           (example_worker, Some (job_message two_equal_lines))])).
Proof.
  apply (units_filed_under_own_id (H := example_collaborators)).
  intros payload cls j cls' Hde. cbn in Hde. injection Hde as <- _. reflexivity.
Defined.

(** [process_job] never gets to its loop body: the object it iterates over
    is the method itself. *)
Lemma process_job_raises_TypeError (cls : Classes) (self : Master) (new_job : Job) :
  process_job cls self new_job = Raise TypeError.
Proof. reflexivity. Qed.

(** C7 (as the code behaves).  A job module that defines [processor] and
    [input_file] and leaves out [split] or [combine] is not submitted with
    the default strategy: the call of [Job] in [enqueue_job] passes the
    keyword [input_file], which the constructor does not declare, so the
    submission ends in [TypeError]; no job is built, no class attribute is
    assigned and nothing is enqueued. *)
Theorem missing_strategy_submission_raises_TypeError
    (import_module : str -> result JobModule) (gethostname : str)
    (cls : Classes) (jobfile : str) (jobcode : JobModule)
    (processor : Processor) (input_file : pyval) :
  import_module jobfile = Ok jobcode ->
  mod_processor jobcode = Some processor ->
  mod_input_file jobcode = Some input_file ->
  mod_split jobcode = None \/ mod_combine jobcode = None ->
  enqueue_job import_module gethostname cls jobfile
  = SubmitRaised TypeError (submitter_messenger gethostname) cls
  /\ outbound_queue (submitter_messenger gethostname) = [].
Proof.
  intros Himport Hp Hf _. split; [|reflexivity].
  unfold enqueue_job. rewrite Himport, Hp, Hf. cbn [getattr].
  rewrite Job_new_input_file. reflexivity.
Qed.

Lemma missing_strategy_submission_raises_TypeError_witness :
  enqueue_job (fun _ => Ok module_with_processor_only) (lit "master")
    initial_classes (lit "wordcount")
  = SubmitRaised TypeError (submitter_messenger (lit "master")) initial_classes
  /\ outbound_queue (submitter_messenger (lit "master")) = [].
Proof.
  apply (missing_strategy_submission_raises_TypeError
           (fun _ => Ok module_with_processor_only) (lit "master") initial_classes
           (lit "wordcount") module_with_processor_only example_processor
           (VStr (lit "input.txt")));
    [reflexivity|reflexivity|reflexivity|left; reflexivity].
Defined.
